(** * Session registry of the BAN-MD pairing service

    Shallow embedding of the session lifecycle code of the pairing
    service: [createSession], the [/api/qr] and [/api/pair] handlers of
    [ban-md.js], of [server.js] and of the other near-duplicate variants
    ([part_000], [part_003]).

    - The process-wide [sessions] Map is a [gmap string _].
    - Session objects are mutable and shared between the registry and the
      [connection.update] listener, so they live in a small heap indexed
      by the handle of the socket they were built with.
    - The external library (useMultiFileAuthState, fetchLatestBaileysVersion,
      makeWASocket, sock.requestPairingCode) is an oracle: which of its
      calls throw in a given run, and what a socket reports as [sock.user].
    - Each provider call performed is appended to a log, so that "the
      provider is not invoked" is a statement about that log.
    - The waiting part of [/api/qr] is a small state machine driven by a
      schedule of timestamped events ([connection.update] deliveries and
      the expiry of the [setTimeout] timer). *)

From Stdlib Require Import ZArith Lia.
From stdpp Require Import base gmap strings list.

Open Scope Z_scope.

(* ------------------------------------------------------------------ *)
(** ** A state/error monad for async handlers *)

Inductive result (A : Type) : Type :=
| Ok (a : A)
| Throw (msg : string).
Arguments Ok {A} a.
Arguments Throw {A} msg.

Definition M (S A : Type) : Type := S -> result A * S.

Definition ret {S A} (a : A) : M S A := fun s => (Ok a, s).

Definition bind {S A B} (m : M S A) (k : A -> M S B) : M S B :=
  fun s => match m s with
           | (Ok a, s') => k a s'
           | (Throw e, s') => (Throw e, s')
           end.

Definition get {S} : M S S := fun s => (Ok s, s).
Definition put {S} (s : S) : M S unit := fun _ => (Ok tt, s).
Definition modify {S} (f : S -> S) : M S unit := fun s => (Ok tt, f s).
Definition throw {S A} (e : string) : M S A := fun s => (Throw e, s).

(** [try { m } catch (e) { h(e.message) }] *)
Definition try_catch {S A} (m : M S A) (h : string -> M S A) : M S A :=
  fun s => match m s with
           | (Ok a, s') => (Ok a, s')
           | (Throw e, s') => h e s'
           end.

Notation "x <- m ;; k" := (bind m (fun x => k))
  (at level 64, m at next level, right associativity).
Notation "m ;;; k" := (bind m (fun _ => k))
  (at level 64, right associativity).

(* ------------------------------------------------------------------ *)
(** ** Provider (external library) calls *)

Inductive ext_call :=
| UseMultiFileAuthState (dir : string)
| FetchLatestBaileysVersion
| MakeWASocket
| RequestPairingCode (phone : string).

(** JS string helpers. *)

(** [/\D/] matches every code unit that is not an ASCII digit. *)
Definition is_digit (c : Ascii.ascii) : bool :=
  let n := Ascii.nat_of_ascii c in Nat.leb 48 n && Nat.leb n 57.

(** [s.replace(/\D/g, "")] *)
Fixpoint strip_non_digits (s : string) : string :=
  match s with
  | EmptyString => EmptyString
  | String c s' =>
      if is_digit c then String c (strip_non_digits s') else strip_non_digits s'
  end.

(** JS truthiness of a string: only [""] is falsy. *)
Definition truthy (s : string) : bool :=
  match s with EmptyString => false | _ => true end.

(** Replies of the [/api/qr] handlers ([res.json(...)] bodies). *)
Inductive qr_reply :=
| RAlready (user : option string)   (* { message: "Already logged in", user } *)
| RConnected                        (* { ok: true, connected: true } (server.js) *)
| RQR (payload : string)            (* { qr: toDataURL(payload) } *)
| RTimeout.                         (* { error: "QR not available ..." } / 504 *)

(** A parsed [connection.update] payload: [update.qr], [update.connection]. *)
Record update := mkUpdate {
  u_qr : option string;
  u_connection : option string
}.

(** [if (update.qr)] *)
Definition has_qr (u : update) : option string :=
  match u_qr u with Some q => if truthy q then Some q else None | None => None end.

(** [update.connection === "open"] *)
Definition is_open (u : update) : bool :=
  match u_connection u with Some c => bool_decide (c = "open") | None => false end.

(** Events seen by one pending [/api/qr] call after it registered its
    listener and its timer: a [connection.update] delivery (with the value
    of [sock.user] at that moment) or the expiry of the [setTimeout]. *)
Inductive event :=
| EvUpdate (u : update) (sock_user : option string)
| EvTimer.

(** State of one pending [/api/qr] call: the [responded] latch, whether its
    listener is still registered on [sock.ev], whether its timer is still
    armed, and the replies it has sent, with the time of each. *)
Record call := mkCall {
  c_responded : bool;
  c_listening : bool;
  c_timer : bool;
  c_replies : list (Z * qr_reply)
}.

Definition call0 : call := mkCall false true true [].

Definition set_responded (c : call) : call :=
  mkCall true (c_listening c) (c_timer c) (c_replies c).
Definition set_off (c : call) : call :=
  mkCall (c_responded c) false (c_timer c) (c_replies c).
Definition clear_timer (c : call) : call :=
  mkCall (c_responded c) (c_listening c) false (c_replies c).
Definition send (t : Z) (r : qr_reply) (c : call) : call :=
  mkCall (c_responded c) (c_listening c) (c_timer c) (c_replies c ++ [(t, r)]).

(** A schedule: events in the order the event loop runs them. *)
Definition run (step : call -> Z -> event -> call) (c : call)
    (sched : list (Z * event)) : call :=
  fold_left (fun c te => step c te.1 te.2) sched c.

(* ------------------------------------------------------------------ *)
(** ** [ban-md.js]: the session store and [createSession] *)

Module BanMd.

(** A socket as far as the handlers see it: its [user] field, which the
    library sets once the device is linked. *)
Record sock_st := mkSock { sk_user : option string }.

(** Session object [{ sock, lastQR, lastQRAt, user, connection }];
    [s_sock] is the handle of its socket. *)
Record sess := mkSess {
  s_sock : nat;
  s_lastQR : option string;
  s_lastQRAt : Z;
  s_user : option string;
  s_connection : string
}.

Record world := mkWorld {
  w_reg : gmap string nat;        (* sessions: id -> session object *)
  w_heap : gmap nat sess;         (* session objects, by socket handle *)
  w_socks : gmap nat sock_st;     (* sockets created by makeWASocket *)
  w_next : nat;                   (* next fresh socket handle *)
  w_log : list ext_call           (* provider calls performed *)
}.

Section Provider.

(** Which provider calls throw in this run. *)
Variable fails : ext_call -> bool.
(** [sock.user] of a fresh socket: [creds.me] of the persisted store. *)
Variable creds_me : string -> option string.

(** An awaited provider call: it throws, or it is performed and logged. *)
Definition ext (c : ext_call) : M world unit :=
  fun w => if fails c then (Throw "provider error", w)
           else (Ok tt, mkWorld (w_reg w) (w_heap w) (w_socks w) (w_next w)
                                (w_log w ++ [c])).

Definition sock_user (w : world) (h : nat) : option string :=
  match w_socks w !! h with Some k => sk_user k | None => None end.

(** Outcome of the synchronous prefix of [createSession], before its first
    [await]: the existing session ([if (s && s.sock) return ...]) or the
    id for which a session is to be built. *)
Inductive check_res :=
| Found (id : string) (s : sess)
| Build (id : string).

(** [const id = sessionId || randomId(); let s = sessions.get(id);
     if (s && s.sock) return { id, ...s };]  ([rid] is what [randomId()]
    returns in this run). *)
Definition cs_check (sessionId : option string) (rid : string) : M world check_res :=
  w <- get ;;
  let id := match sessionId with
            | Some x => if truthy x then x else rid
            | None => rid
            end in
  match w_reg w !! id with
  | Some l => match w_heap w !! l with
              | Some s => ret (Found id s)
              | None => ret (Build id)
              end
  | None => ret (Build id)
  end.

(** The rest of [createSession], after the check: two awaits, the socket,
    [sessions.set(id, s)], then the listeners; returns [{ id, ...s }]. *)
Definition cs_build (id : string) : M world (string * sess) :=
  ext (UseMultiFileAuthState ("sessions/" +:+ id)) ;;;
  ext FetchLatestBaileysVersion ;;;
  ext MakeWASocket ;;;
  w <- get ;;
  let h := w_next w in
  let s := mkSess h None 0 None "init" in
  put (mkWorld (<[id := h]> (w_reg w))          (* sessions.set(id, s) *)
               (<[h := s]> (w_heap w))
               (<[h := mkSock (creds_me id)]> (w_socks w))
               (S h) (w_log w)) ;;;
  (* sock.ev.on("creds.update", ...) and sock.ev.on("connection.update", ...)
     only register callbacks; see [on_connection_update] *)
  ret (id, s).

(** What runs once the synchronous prefix has been decided. *)
Definition cs_resume (r : check_res) : M world (string * sess) :=
  match r with
  | Found id s => ret (id, s)
  | Build id => cs_build id
  end.

Definition createSession (sessionId : option string) (rid : string)
  : M world (string * sess) :=
  r <- cs_check sessionId rid ;;
  cs_resume r.

(** Two calls of [createSession] interleaved at their first [await]: the
    synchronous prefix of each runs before the continuation of either. *)
Definition createSession_interleaved (sidA sidB : option string) (rid : string)
  : M world ((string * sess) * (string * sess)) :=
  rA <- cs_check sidA rid ;;
  rB <- cs_check sidB rid ;;
  a <- cs_resume rA ;;
  b <- cs_resume rB ;;
  ret (a, b).

(** The session's own [connection.update] listener (registered in
    [createSession]), acting on the shared session object [h]; [now] is
    [Date.now()] and [su] is [sock.user] when it runs. *)
Definition on_connection_update (h : nat) (now : Z) (u : update)
    (su : option string) (w : world) : world :=
  match w_heap w !! h with
  | None => w
  | Some s =>
      let s1 := match has_qr u with
                | Some q => mkSess (s_sock s) (Some q) now (s_user s) (s_connection s)
                | None => s
                end in
      let s2 := match u_connection u with
                | Some c => if truthy c
                            then mkSess (s_sock s1) (s_lastQR s1) (s_lastQRAt s1) (s_user s1) c
                            else s1
                | None => s1
                end in
      let s3 := match su with
                | Some usr => mkSess (s_sock s2) (s_lastQR s2) (s_lastQRAt s2) (Some usr) (s_connection s2)
                | None => s2
                end in
      mkWorld (w_reg w) (<[h := s3]> (w_heap w)) (w_socks w) (w_next w) (w_log w)
  end.

(** The synchronous part of [GET /api/qr/:sessionId?] up to the point where
    it either replies or registers its listener and timer. *)
Inductive qr_start :=
| QReply (id : string) (r : qr_reply)
| QWait (id : string) (h : nat) (due : Z).

Definition QR_TTL : Z := 60000.
Definition QR_WAIT : Z := 10000.

(** [param] is [req.params.sessionId]; [now] is [Date.now()]. *)
Definition getQR (param : option string) (rid : string) (now : Z)
  : M world qr_start :=
  let wantedId := match param with
                  | Some p => if truthy p && negb (bool_decide (p = "new"))
                              then Some p else None
                  | None => None
                  end in
  r <- createSession wantedId rid ;;
  let '(id, s) := r in
  w <- get ;;
  match sock_user w (s_sock s) with
  | Some u => ret (QReply id (RAlready (Some u)))     (* if (sock.user) *)
  | None =>
      match s_lastQR s with
      | Some q =>
          if truthy q && bool_decide (now - s_lastQRAt s < QR_TTL)
          then ret (QReply id (RQR q))
          else ret (QWait id (s_sock s) (now + QR_WAIT))
      | None => ret (QWait id (s_sock s) (now + QR_WAIT))
      end
  end.

(** Replies of [GET /api/pair/:sessionId/:phone]. *)
Inductive pair_reply :=
| PInvalidPhone                 (* { error: "Valid phone required ..." } *)
| PAlready (user : string)      (* { message: "Already logged in", user } *)
| PCode (code : string)         (* { code } *)
| PError (msg : string).        (* { error: e.message || ... } *)

(** What [sock.requestPairingCode(clean)] resolves to, when it does not
    throw. *)
Variable code_of : string -> string.

Definition pair (sessionId phone rid : string) : M world pair_reply :=
  let clean := strip_non_digits phone in
  if negb (truthy clean) then ret PInvalidPhone else
  r <- createSession (Some sessionId) rid ;;
  w <- get ;;
  match sock_user w (s_sock r.2) with
  | Some u => ret (PAlready u)
  | None =>
      try_catch (ext (RequestPairingCode clean) ;;; ret (PCode (code_of clean)))
                (fun e => ret (PError e))
  end.

End Provider.

(** The waiting part of the handler: [sock.ev.once("connection.update",
    handler)] and [setTimeout(..., 10_000)].  The QR branch sets
    [responded] before its [await qrcode.toDataURL], so the reply is
    committed at that point; it is recorded at the event's time. *)
Definition on_event (c : call) (t : Z) (e : event) : call :=
  match e with
  | EvUpdate u su =>
      if c_listening c then
        (* [once]: the listener is removed before it runs *)
        let c := set_off c in
        let c := match has_qr u with
                 | Some q => if negb (c_responded c)
                             then send t (RQR q) (set_responded c) else c
                 | None => c
                 end in
        if is_open u && negb (c_responded c)
        then send t (RAlready su) (set_responded c) else c
      else c
  | EvTimer =>
      if c_timer c then
        let c := clear_timer c in
        (* if (!responded) res.json({ error: ... }) *)
        if negb (c_responded c) then send t RTimeout c else c
      else c
  end.

(** [GET /api/me/:sessionId]: a plain read of the store. *)
Inductive me_reply :=
| MeUnknown                                       (* { error: "Unknown session" } *)
| MeInfo (user : option string) (connection : string).
                                                  (* { user: s.user || null, connection } *)

Definition whoami (sessionId : string) : M world me_reply :=
  w <- get ;;
  match w_reg w !! sessionId with
  | Some l => match w_heap w !! l with
              | Some s => ret (MeInfo (s_user s) (s_connection s))
              | None => ret MeUnknown
              end
  | None => ret MeUnknown
  end.

(** The page's [getPair()] (the script served at [/]): it strips the
    phone field with [.replace(/\D/g,'')] and either shows "Enter a valid
    phone." without a request, or fetches [/api/pair/<sid>/<digits>]. *)
Inductive client_pair :=
| CInvalid
| CFetch (phone : string).

Definition client_getPair (field : string) : client_pair :=
  let phone := strip_non_digits field in
  if negb (truthy phone) then CInvalid else CFetch phone.

End BanMd.

(* ------------------------------------------------------------------ *)
(** ** [server.js]: registry of sockets, evicted on close *)

Module Server.

Record world := mkWorld {
  sv_reg : gmap string nat;       (* sessions: sessionId -> sock *)
  sv_next : nat;                  (* next fresh socket handle *)
  sv_log : list ext_call
}.

Section Provider.

Variable fails : ext_call -> bool.

Definition ext (c : ext_call) : M world unit :=
  fun w => if fails c then (Throw "provider error", w)
           else (Ok tt, mkWorld (sv_reg w) (sv_next w) (sv_log w ++ [c])).

(** [async function createSession(sessionId = "session1")]; the route
    always supplies [sessionId].  The auth folder
    [path.join(__dirname, "sessions", sessionId)] is recorded relative to
    [__dirname], as ["sessions/" +:+ sessionId]. *)
Definition createSession (sessionId : string) : M world nat :=
  w <- get ;;
  match sv_reg w !! sessionId with
  | Some h => ret h                  (* if (sessions.get(sessionId)) return ... *)
  | None =>
      ext (UseMultiFileAuthState ("sessions/" +:+ sessionId)) ;;;
      ext FetchLatestBaileysVersion ;;;
      ext MakeWASocket ;;;
      w <- get ;;
      let h := sv_next w in
      (* sock.ev.on("creds.update", ...); sock.ev.on("connection.update", ...) *)
      put (mkWorld (<[sessionId := h]> (sv_reg w)) (S h) (sv_log w)) ;;;
      ret h
  end.

(** What [sock.requestPairingCode(phone)] resolves to, when it does not
    throw. *)
Variable code_of : string -> string.

Inductive pair_reply :=
| SPCode (code : string)          (* { ok: true, code } *)
| SPFail.                         (* 500 { ok: false, error: "Failed to get pairing code" } *)

(** [GET /api/pair/:sessionId/:phone]: the whole body is in one
    [try]/[catch]; the phone goes to the provider as it came in the URL. *)
Definition pair (sessionId phone : string) : M world pair_reply :=
  try_catch (createSession sessionId ;;;
             ext (RequestPairingCode phone) ;;;
             ret (SPCode (code_of phone)))
            (fun _ => ret SPFail).

End Provider.

(** The listener registered by [createSession(sessionId)]:
    [if (connection === "close") sessions.delete(sessionId)]. *)
Definition on_connection_update (sessionId : string) (u : update) (w : world)
  : world :=
  match u_connection u with
  | Some c => if bool_decide (c = "close")
              then mkWorld (delete sessionId (sv_reg w)) (sv_next w) (sv_log w)
              else w
  | None => w
  end.

(** Every socket in the registry was allocated before [sv_next]. *)
Definition wf (w : world) : Prop :=
  forall k v, sv_reg w !! k = Some v -> (v < sv_next w)%nat.

Definition QR_WAIT : Z := 10000.

(** [GET /api/qr/:sessionId]: it always waits; the timer is due at
    [now + 10000]. *)
Definition getQR (sessionId : string) (now : Z) (fails : ext_call -> bool)
  : M world (nat * Z) :=
  h <- createSession fails sessionId ;;
  ret (h, now + QR_WAIT).

(** [sock.ev.on("connection.update", handler)] with [sock.ev.off] after a
    reply, and a timer that sets [responded] and removes the listener. *)
Definition on_event (c : call) (t : Z) (e : event) : call :=
  match e with
  | EvUpdate u su =>
      if c_listening c then
        let c := match has_qr u with
                 | Some q => if negb (c_responded c)
                             then set_off (send t (RQR q) (set_responded c))
                             else c
                 | None => c
                 end in
        if is_open u && negb (c_responded c)
        then set_off (send t RConnected (set_responded c)) else c
      else c
  | EvTimer =>
      if c_timer c then
        let c := clear_timer c in
        if negb (c_responded c)
        then set_off (send t RTimeout (set_responded c)) else c
      else c
  end.

End Server.

(* ------------------------------------------------------------------ *)
(** ** [part_000]: the 25 s long-poll variant of [/api/qr]

    Its [createSession] has the same structure as the one of [ban-md.js]
    (check [S?.sock], two awaits, the socket, [sessions.set], listeners),
    so [BanMd.createSession] is reused; its session objects carry
    [sentSessionMsg] instead of [user]/[connection], which the handler
    does not read. *)

Module Part000.

Definition QR_TTL : Z := 60000.
Definition QR_WAIT : Z := 25000.

Definition getQR (fails : ext_call -> bool) (creds_me : string -> option string)
    (param : option string) (rid : string) (now : Z)
  : M BanMd.world BanMd.qr_start :=
  let wanted := match param with
                | Some p => if truthy p && negb (bool_decide (p = "new"))
                            then Some p else None
                | None => None
                end in
  r <- BanMd.createSession fails creds_me wanted rid ;;
  let '(sessionId, s) := r in
  w <- get ;;
  match BanMd.sock_user w (BanMd.s_sock s) with
  | Some u => ret (BanMd.QReply sessionId (RAlready (Some u)))
  | None =>
      match BanMd.s_lastQR s with
      | Some q =>
          if truthy q && bool_decide (now - BanMd.s_lastQRAt s < QR_TTL)
          then ret (BanMd.QReply sessionId (RQR q))
          else ret (BanMd.QWait sessionId (BanMd.s_sock s) (now + QR_WAIT))
      | None => ret (BanMd.QWait sessionId (BanMd.s_sock s) (now + QR_WAIT))
      end
  end.

(** As in [ban-md.js] ([once], timer without latch), plus
    [res.on("finish", () => clearTimeout(t))]: a reply from the handler
    disarms the timer. *)
Definition on_event (c : call) (t : Z) (e : event) : call :=
  match e with
  | EvUpdate u su =>
      if c_listening c then
        let c := set_off c in
        let c := match has_qr u with
                 | Some q => if negb (c_responded c)
                             then clear_timer (send t (RQR q) (set_responded c))
                             else c
                 | None => c
                 end in
        if is_open u && negb (c_responded c)
        then clear_timer (send t (RAlready su) (set_responded c)) else c
      else c
  | EvTimer =>
      if c_timer c then
        let c := clear_timer c in
        if negb (c_responded c) then send t RTimeout c else c
      else c
  end.

(** [newSessionId()]: ["ban-" + crypto.randomBytes(4).toString("hex")];
    [bs] are the bytes drawn in this run. *)
Definition hex_digit (n : nat) : Ascii.ascii :=
  Ascii.ascii_of_nat (if Nat.ltb n 10 then 48 + n else 87 + n)%nat.

Definition byte_hex (b : Byte.byte) : string :=
  let n := Byte.to_nat b in
  String (hex_digit (n / 16)) (String (hex_digit (n mod 16)) EmptyString).

(** [Buffer.prototype.toString("hex")]: two lower-case digits per byte. *)
Fixpoint to_hex (bs : list Byte.byte) : string :=
  match bs with
  | [] => EmptyString
  | b :: bs' => String.append (byte_hex b) (to_hex bs')
  end.

Definition newSessionId (bs : list Byte.byte) : string :=
  String.append "ban-" (to_hex bs).

(** The session listener's own state: [S.lastQR], [S.lastQRAt],
    [S.sentSessionMsg], the number of [await sock.sendMessage(...)] calls
    still pending, and the messages sent, as (recipient, session id). *)
Record lsn := mkLsn {
  l_lastQR : option string;
  l_lastQRAt : Z;
  l_sent : bool;
  l_inflight : nat;
  l_msgs : list (string * string)
}.

Definition lsn0 : lsn := mkLsn None 0 false 0 [].

(** What reaches the listener: a [connection.update] (with [Date.now()]
    and [sock?.user?.id]), or the settling of a pending [sendMessage]
    (fulfilled or rejected). *)
Inductive lsn_event :=
| LUpdate (u : update) (now : Z) (user_id : option string)
| LSendSettled (fulfilled : bool).

(** The [connection.update] listener registered by [createSession] in
    [part_000], for session [sessionId] ([st] is the JS object [S]). *)
Definition on_lsn_event (sessionId : string) (st : lsn) (e : lsn_event) : lsn :=
  match e with
  | LUpdate u now uid =>
      let st := match has_qr u with
               | Some q => mkLsn (Some q) now (l_sent st) (l_inflight st) (l_msgs st)
               | None => st
               end in
      match uid with
      | Some id =>
          if is_open u && negb (l_sent st) && truthy id
          then (* await sock.sendMessage(sock.user.id, { text: ... sessionId ... }) *)
               mkLsn (l_lastQR st) (l_lastQRAt st) (l_sent st) (S (l_inflight st))
                     (l_msgs st ++ [(id, sessionId)])
          else st
      | None => st
      end
  | LSendSettled _ =>
      (* after the try/catch, on both outcomes: S.sentSessionMsg = true *)
      match l_inflight st with
      | O => st
      | S n => mkLsn (l_lastQR st) (l_lastQRAt st) true n (l_msgs st)
      end
  end.

Definition run_lsn (sessionId : string) (st : lsn) (es : list lsn_event) : lsn :=
  fold_left (on_lsn_event sessionId) es st.

End Part000.

(* ------------------------------------------------------------------ *)
(** ** [part_002]: the in-memory pair-code store *)

Module Part002.

Definition CODE_TTL_MS : Z := 5 * 60 * 1000.

(** [{ createdAt, expiresAt }], in milliseconds. *)
Record rec := mkRec { createdAt : Z; expiresAt : Z }.

Abbreviation store := (gmap string rec).

(** [newCode()] with [nanoid()] = [code] and [Date.now()] = [now]; the
    reply carries [createdAt] and [expiresAt] (as ISO strings in JS). *)
Definition newCode (code : string) (now : Z) (st : store)
  : (string * Z * Z) * store :=
  ((code, now, now + CODE_TTL_MS), <[code := mkRec now (now + CODE_TTL_MS)]> st).

(** [isValid(code)] at time [now]; an expired record is deleted. *)
Definition isValid (code : string) (now : Z) (st : store) : bool * store :=
  match st !! code with
  | None => (false, st)
  | Some r => if bool_decide (now > expiresAt r)
              then (false, delete code st)
              else (true, st)
  end.

Inductive validate_reply :=
| VMissing                                  (* 400 { ok: false, error: "Missing code" } *)
| VResult (code : string) (valid : bool).   (* { ok: true, code, valid } *)

(** [GET /api/pair/validate?code=...] *)
Definition validate (code : option string) (now : Z) (st : store)
  : validate_reply * store :=
  match code with
  | Some c => if truthy c
              then let '(v, st') := isValid c now st in (VResult c v, st')
              else (VMissing, st)
  | None => (VMissing, st)
  end.

Inductive png_reply :=
| PngNotFound                      (* 404 "Invalid or expired code" *)
| PngQR (payload : string).        (* QRCode.toFileStream(res, payload, ...) *)

(** [GET /api/qr/:code.png] *)
Definition qr_png (code : string) (now : Z) (st : store) : png_reply * store :=
  let '(v, st') := isValid code now st in
  if v then (PngQR (String.append "PAIR:" code), st') else (PngNotFound, st').

End Part002.

(* ------------------------------------------------------------------ *)
(** ** [part_003]: [GET /pair] with 8-digit normalization *)

Module Part003.

Fixpoint zeros (n : nat) : string :=
  match n with O => EmptyString | S n' => String (Ascii.ascii_of_nat 48) (zeros n') end.

(** [s.padEnd(n, "0")] *)
Definition padEnd0 (s : string) (n : nat) : string :=
  if Nat.leb n (String.length s) then s
  else String.append s (zeros (n - String.length s)).

(** [raw.replace(/\D/g, "").padEnd(8, "0").slice(0, 8)] *)
Definition code8 (raw : string) : string :=
  String.substring 0 8 (padEnd0 (strip_non_digits raw) 8).

Inductive pair_reply :=
| PNoPhone                      (* { ok: false, message: "Phone number required" } *)
| PCode (code : string)         (* { ok: true, code: code8, ... } *)
| PError (msg : string)         (* { ok: false, message: e.message } *)
| PUnsupported.                 (* requestPairingCode is not a function *)

(** The reply of [/pair] given the query's [phone], whether the socket has
    [requestPairingCode], and what that call resolved to or threw. *)
Definition pair (phone : option string) (supported : bool) (raw : result string)
  : pair_reply :=
  match phone with
  | None => PNoPhone
  | Some p =>
      if negb (truthy p) then PNoPhone
      else if supported then
        match raw with
        | Ok r => PCode (code8 r)
        | Throw e => PError e
        end
      else PUnsupported
  end.

(** [const sessions = {}]: a plain object, so a read [sessions[k]] of a key
    with no own property finds the members of [Object.prototype]. *)
Definition proto_keys : list string :=
  ["constructor"; "__defineGetter__"; "__defineSetter__"; "hasOwnProperty";
   "__lookupGetter__"; "__lookupSetter__"; "isPrototypeOf";
   "propertyIsEnumerable"; "toString"; "valueOf"; "__proto__";
   "toLocaleString"].

(** A value read from [sessions]: an own entry [{ sock }] (by socket
    handle) or an inherited member (a function, or [Object.prototype] for
    ["__proto__"]), truthy but with no [sock]. *)
Inductive jsval :=
| VSession (h : nat)
| VInherited (name : string).

Record world := mkWorld {
  p_sessions : gmap string nat;   (* own properties of sessions *)
  p_next : nat;
  p_log : list ext_call;
  p_listeners : gmap nat nat      (* connection.update listeners per socket *)
}.

(** [sessions[k]] *)
Definition read (w : world) (k : string) : option jsval :=
  match p_sessions w !! k with
  | Some h => Some (VSession h)
  | None => if bool_decide (k ∈ proto_keys) then Some (VInherited k) else None
  end.

Section Provider.

Variable fails : ext_call -> bool.

Definition ext (c : ext_call) : M world unit :=
  fun w => if fails c then (Throw "provider error", w)
           else (Ok tt, mkWorld (p_sessions w) (p_next w) (p_log w ++ [c])
                                (p_listeners w)).

(** [async function createSession(sessionId = "ban-session1")] *)
Definition createSession (sessionId : string) : M world jsval :=
  w <- get ;;
  match read w sessionId with
  | Some v => ret v                    (* if (sessions[sessionId]) return ... *)
  | None =>
      ext (UseMultiFileAuthState ("./sessions/" +:+ sessionId)) ;;;
      ext FetchLatestBaileysVersion ;;;
      ext MakeWASocket ;;;
      w <- get ;;
      let h := p_next w in
      put (mkWorld (<[sessionId := h]> (p_sessions w)) (S h) (p_log w)
                   (p_listeners w)) ;;;
      ret (VSession h)
  end.

End Provider.

(** [s.sock] of a value read from [sessions]; reading a property of
    [undefined] throws a TypeError. *)
Definition sock_of (v : jsval) : M world nat :=
  match v with
  | VSession h => ret h
  | VInherited _ => throw "TypeError: Cannot read properties of undefined"
  end.

Inductive status_reply :=
| StNone (session : string)                 (* { ok: false, session, status: "none" } *)
| StStatus (session : string) (status : string).

(** [GET /status]; [ready h] is [sock.ws.readyState] of socket [h]. *)
Definition status (ready : nat -> Z) (sessionId : string) : M world status_reply :=
  w <- get ;;
  match read w sessionId with
  | None => ret (StNone sessionId)
  | Some v =>
      h <- sock_of v ;;
      let state := ready h in
      let st1 := if bool_decide (state = 1) then "open" else "connecting" in
      let st2 := if bool_decide (state = 3) then "close" else st1 in
      ret (StStatus sessionId st2)
  end.

(** [GET /qr], up to its [setTimeout(..., 2000)]: it adds a
    [connection.update] listener to the session's socket (never removed). *)
Definition qr_start (fails : ext_call -> bool) (sessionId : string) : M world nat :=
  v <- createSession fails sessionId ;;
  h <- sock_of v ;;
  w <- get ;;
  let n := match p_listeners w !! h with Some n => n | None => O end in
  put (mkWorld (p_sessions w) (p_next w) (p_log w) (<[h := S n]> (p_listeners w))) ;;;
  ret h.

Inductive qr003_reply :=
| QOk (qr : string)          (* { ok: true, qr: `data:image/png;base64,${qrData}` } *)
| QNotYet.                   (* { ok: false, message: "QR not available yet." } *)

(** The listener's [qrData] after the updates delivered within the 2 s,
    and the reply of the timer. *)
Definition qr_collect (ups : list update) : option string :=
  fold_left (fun acc u => match has_qr u with Some q => Some q | None => acc end) ups None.

Definition qr_reply (ups : list update) : qr003_reply :=
  match qr_collect ups with
  | Some q => QOk (String.append "data:image/png;base64," q)
  | None => QNotYet
  end.

End Part003.

(* ------------------------------------------------------------------ *)
(** ** Predicates on schedules and sample states *)

(** A step only appends replies. *)
Definition appends (step : call -> Z -> event -> call) : Prop :=
  forall c t e, exists l, c_replies (step c t e) = c_replies c ++ l.

(** An event that neither carries a QR nor reports [connection: "open"]. *)
Definition quiet (te : Z * event) : Prop :=
  match te.2 with
  | EvUpdate u _ => has_qr u = None /\ is_open u = false
  | EvTimer => False
  end.

(** Nothing replied yet and the timer still armed. *)
Definition pending (c : call) : Prop :=
  c_responded c = false /\ c_timer c = true /\ c_replies c = [].

(** A provider whose calls all succeed; one whose calls all throw; no
    persisted credentials. *)
Definition no_failure : ext_call -> bool := fun _ => false.
Definition all_fail : ext_call -> bool := fun _ => true.
Definition no_creds : string -> option string := fun _ => None.

Definition banmd_empty : BanMd.world := BanMd.mkWorld ∅ ∅ ∅ 0 [].
Definition server_empty : Server.world := Server.mkWorld ∅ 0 [].

(** Session ["s1"] whose socket is linked to ["u1"], with no cached QR. *)
Definition banmd_linked : BanMd.world :=
  BanMd.mkWorld {[ "s1" := 0%nat ]}
                {[ 0%nat := BanMd.mkSess 0 None 0 (Some "u1") "open" ]}
                {[ 0%nat := BanMd.mkSock (Some "u1") ]} 1 [].

(** Session ["s1"], not linked, holding the QR ["Q1"] received at 1000. *)
Definition banmd_cached : BanMd.world :=
  BanMd.mkWorld {[ "s1" := 0%nat ]}
                {[ 0%nat := BanMd.mkSess 0 (Some "Q1") 1000 None "connecting" ]}
                {[ 0%nat := BanMd.mkSock None ]} 1 [].


(** A provider whose [makeWASocket] throws. *)
Definition fail_make : ext_call -> bool :=
  fun c => match c with MakeWASocket => true | _ => false end.

(** [server.js] with socket 0 registered under ["s1"]. *)
Definition server_s1 : Server.world := Server.mkWorld {[ "s1" := 0%nat ]} 1 [].

(** Reading back [Buffer.toString("hex")]: the value of a lower-case hex
    digit, and the bytes of a string of digit pairs. *)
Definition hex_val (c : Ascii.ascii) : nat :=
  let n := Ascii.nat_of_ascii c in
  if Nat.leb 97 n then (n - 87)%nat else (n - 48)%nat.

Fixpoint from_hex (s : string) : list Byte.byte :=
  match s with
  | String c1 (String c2 s') =>
      match Byte.of_nat (16 * hex_val c1 + hex_val c2)%nat with
      | Some b => b :: from_hex s'
      | None => []
      end
  | _ => []
  end.

(** [n] successive [GET /qr] requests of [part_003] for one session. *)
Fixpoint qr_n (fails : ext_call -> bool) (sid : string) (n : nat) : M Part003.world unit :=
  match n with
  | O => ret tt
  | S n' => Part003.qr_start fails sid ;;; qr_n fails sid n'
  end.

(** A session registered under the id ["new"], not linked. *)
Definition banmd_named_new : BanMd.world :=
  BanMd.mkWorld {[ "new" := 0%nat ]}
                {[ 0%nat := BanMd.mkSess 0 None 0 None "init" ]}
                {[ 0%nat := BanMd.mkSock None ]} 1 [].

(** [part_003] with no session; with socket 0 registered under ["s1"]. *)
Definition part003_empty : Part003.world := Part003.mkWorld ∅ 0 [] ∅.
Definition part003_s1 : Part003.world := Part003.mkWorld {[ "s1" := 0%nat ]} 1 [] ∅.

(* ================================================================== *)
(** * Properties *)

(** ** Generic facts about schedules *)

Lemma run_app (step : call -> Z -> event -> call) c s1 s2 :
  run step c (s1 ++ s2) = run step (run step c s1) s2.
Proof. unfold run. by rewrite fold_left_app. Qed.

Lemma run_ind (P : call -> Prop) (step : call -> Z -> event -> call) :
  (forall c t e, P c -> P (step c t e)) ->
  forall sched c, P c -> P (run step c sched).
Proof.
  intros Hstep sched. induction sched as [|[t e] sched IH]; intros c Hc; [done|].
  simpl. apply IH. by apply Hstep.
Qed.

Lemma run_appends step : appends step ->
  forall sched c, exists l, c_replies (run step c sched) = c_replies c ++ l.
Proof.
  intros Hs sched. induction sched as [|[t e] sched IH]; intros c.
  - exists []. by rewrite app_nil_r.
  - simpl. destruct (Hs c t e) as [l1 H1]. destruct (IH (step c t e)) as [l2 H2].
    exists (l1 ++ l2). by rewrite H2, H1, app_assoc.
Qed.

Lemma banmd_appends : appends BanMd.on_event.
Proof.
  intros [r l tm reps] t [u su|]; unfold BanMd.on_event; cbn.
  - destruct l; cbn; [|exists []; by rewrite app_nil_r].
    destruct (has_qr u) as [q|]; destruct r; cbn;
      destruct (is_open u); cbn; eauto; try (exists []; by rewrite app_nil_r);
      eexists; by rewrite <- app_assoc.
  - destruct tm, r; cbn; eauto; exists []; by rewrite app_nil_r.
Qed.

Lemma part000_appends : appends Part000.on_event.
Proof.
  intros [r l tm reps] t [u su|]; unfold Part000.on_event; cbn.
  - destruct l; cbn; [|exists []; by rewrite app_nil_r].
    destruct (has_qr u) as [q|]; destruct r; cbn;
      destruct (is_open u); cbn; eauto; try (exists []; by rewrite app_nil_r);
      eexists; by rewrite <- app_assoc.
  - destruct tm, r; cbn; eauto; exists []; by rewrite app_nil_r.
Qed.

Lemma banmd_quiet_pending pre c :
  Forall quiet pre -> pending c -> pending (run BanMd.on_event c pre).
Proof.
  intros Hq. revert c. induction Hq as [|[t e] pre Hte Hq IH]; intros c Hc; [done|].
  cbn. apply IH. destruct e as [u su|]; [|done].
  destruct Hte as [Hqr Hop]. destruct c as [r l tm reps], Hc as (Hr & Ht & Hreps).
  cbn in *; subst. unfold BanMd.on_event. destruct l; cbn; rewrite ?Hqr, ?Hop; done.
Qed.

Lemma part000_quiet_pending pre c :
  Forall quiet pre -> pending c -> pending (run Part000.on_event c pre).
Proof.
  intros Hq. revert c. induction Hq as [|[t e] pre Hte Hq IH]; intros c Hc; [done|].
  cbn. apply IH. destruct e as [u su|]; [|done].
  destruct Hte as [Hqr Hop]. destruct c as [r l tm reps], Hc as (Hr & Ht & Hreps).
  cbn in *; subst. unfold Part000.on_event. destruct l; cbn; rewrite ?Hqr, ?Hop; done.
Qed.

(** With only quiet events before the timer, the first reply is the
    timeout, at the time the timer fires. *)
Lemma banmd_first_reply_timeout pre post due :
  Forall quiet pre ->
  head (c_replies (run BanMd.on_event call0 (pre ++ [(due, EvTimer)] ++ post)))
  = Some (due, RTimeout).
Proof.
  intros Hq. rewrite !run_app.
  destruct (banmd_quiet_pending pre call0 Hq) as (Hr & Ht & Hreps); [done|].
  destruct (run BanMd.on_event call0 pre) as [r l tm reps] eqn:E.
  cbn in Hr, Ht, Hreps; subst.
  replace (run BanMd.on_event (mkCall false l true []) [(due, EvTimer)])
    with (mkCall false l false [(due, RTimeout)]) by reflexivity.
  destruct (run_appends _ banmd_appends post (mkCall false l false [(due, RTimeout)]))
    as [l' ->].
  done.
Qed.

Lemma part000_first_reply_timeout pre post due :
  Forall quiet pre ->
  head (c_replies (run Part000.on_event call0 (pre ++ [(due, EvTimer)] ++ post)))
  = Some (due, RTimeout).
Proof.
  intros Hq. rewrite !run_app.
  destruct (part000_quiet_pending pre call0 Hq) as (Hr & Ht & Hreps); [done|].
  destruct (run Part000.on_event call0 pre) as [r l tm reps] eqn:E.
  cbn in Hr, Ht, Hreps; subst.
  replace (run Part000.on_event (mkCall false l true []) [(due, EvTimer)])
    with (mkCall false l false [(due, RTimeout)]) by reflexivity.
  destruct (run_appends _ part000_appends post (mkCall false l false [(due, RTimeout)]))
    as [l' ->].
  done.
Qed.

(** ** Start of [/api/qr]: when the handler waits, its timer is due at the
    hard-coded bound after the call. *)

Lemma banmd_getQR_wait_due f c p rid now w id h due w' :
  BanMd.getQR f c p rid now w = (Ok (BanMd.QWait id h due), w') ->
  due = now + BanMd.QR_WAIT.
Proof.
  unfold BanMd.getQR, bind, get, ret.
  intros H. repeat case_match; simplify_eq; done.
Qed.

Lemma part000_getQR_wait_due f c p rid now w id h due w' :
  Part000.getQR f c p rid now w = (Ok (BanMd.QWait id h due), w') ->
  due = now + Part000.QR_WAIT.
Proof.
  unfold Part000.getQR, bind, get, ret.
  intros H. repeat case_match; simplify_eq; done.
Qed.

(** ** C5 *)

(** C5 (counterexample): with no fresh cached QR and no event at all, a
    [/api/qr] call on a linked session replies "already logged in" at
    once, not with the timeout; and in [ban-md.js] a call on a new session
    times out after 10 s, before the 25 s bound. *)
Lemma C5_counterexample :
  fst (BanMd.getQR no_failure no_creds (Some "s1") "r" 0 banmd_linked)
    = Ok (BanMd.QReply "s1" (RAlready (Some "u1")))
  /\ fst (BanMd.getQR no_failure no_creds (Some "s1") "r" 0 banmd_empty)
    = Ok (BanMd.QWait "s1" 0 10000)
  /\ c_replies (run BanMd.on_event call0 [(10000, EvTimer)]) = [(10000, RTimeout)]
  /\ 10000 < 25000.
Proof. vm_compute. repeat split; reflexivity. Qed.

(** C5 (amended): a [/api/qr] call that waits (the session is not linked
    and holds no fresh QR) arms its timer at the call time plus the bound
    hard-coded in the variant (10 s in [ban-md.js], 25 s in [part_000]);
    if every event delivered before the timer carries neither a QR nor
    [connection: "open"], the first reply is the timeout, sent when the
    timer fires, whatever happens afterwards. *)
Theorem C5_timeout_at_bound :
  (forall f c p rid now w id h due w',
     BanMd.getQR f c p rid now w = (Ok (BanMd.QWait id h due), w') ->
     due = now + 10000 /\
     forall pre post, Forall quiet pre ->
       head (c_replies (run BanMd.on_event call0 (pre ++ [(due, EvTimer)] ++ post)))
       = Some (now + 10000, RTimeout))
  /\
  (forall f c p rid now w id h due w',
     Part000.getQR f c p rid now w = (Ok (BanMd.QWait id h due), w') ->
     due = now + 25000 /\
     forall pre post, Forall quiet pre ->
       head (c_replies (run Part000.on_event call0 (pre ++ [(due, EvTimer)] ++ post)))
       = Some (now + 25000, RTimeout)).
Proof.
  split; intros f c p rid now w id h due w' H.
  - apply banmd_getQR_wait_due in H. subst due. split; [done|].
    intros pre post Hq. by apply banmd_first_reply_timeout.
  - apply part000_getQR_wait_due in H. subst due. split; [done|].
    intros pre post Hq. by apply part000_first_reply_timeout.
Qed.

(** ** C1 and C8: the timer of [ban-md.js] does not latch *)

(** [server.js] sets [responded] in the timer and removes its listener
    on every reply: at most one reply, whatever the schedule. *)
Lemma server_at_most_one_reply sched :
  (length (c_replies (run Server.on_event call0 sched)) <= 1)%nat.
Proof.
  set (P := fun c => (c_responded c = false -> c_replies c = [])
                     /\ (length (c_replies c) <= 1)%nat).
  enough (P (run Server.on_event call0 sched)) as [_ H] by exact H.
  apply run_ind; [|split; cbn; auto with arith].
  intros [r l tm reps] t e [H1 H2]; unfold P; cbn in *.
  destruct r; [|specialize (H1 eq_refl); subst reps].
  - destruct e as [u su|]; unfold Server.on_event; cbn.
    + destruct l; cbn; [|by split].
      destruct (has_qr u), (is_open u); cbn; by split.
    + destruct tm; cbn; by split.
  - destruct e as [u su|]; unfold Server.on_event; cbn.
    + destruct l; cbn; [|by split].
      destruct (has_qr u), (is_open u); cbn; split; cbn; auto; discriminate.
    + destruct tm; cbn; split; cbn; auto; discriminate.
Qed.

(** In [server.js], once the call has replied its listener is removed. *)
Lemma server_replied_listener_off sched :
  c_responded (run Server.on_event call0 sched) = true ->
  c_listening (run Server.on_event call0 sched) = false.
Proof.
  set (P := fun c => c_responded c = true -> c_listening c = false).
  enough (P (run Server.on_event call0 sched)) as H by exact H.
  apply run_ind; [|unfold P; cbn; discriminate].
  intros [r l tm reps] t e H; unfold P in *; cbn in *.
  destruct e as [u su|]; unfold Server.on_event; cbn.
  - destruct l; cbn; [|done].
    destruct (has_qr u) as [q|], r; cbn; destruct (is_open u); cbn; auto.
  - destruct tm, r; cbn; auto.
Qed.

(** C1 (code bug): in [ban-md.js] a [/api/qr] call on a new session
    ["s1"] waits; when its timer and a QR event fire in the same tick,
    timer first, it replies twice: the timeout, then the QR. *)
Theorem C1_banmd_double_reply :
  fst (BanMd.getQR no_failure no_creds (Some "s1") "r" 0 banmd_empty)
    = Ok (BanMd.QWait "s1" 0 10000)
  /\ c_replies (run BanMd.on_event call0
                  [(10000, EvTimer);
                   (10000, EvUpdate (mkUpdate (Some "Q1") None) None)])
     = [(10000, RTimeout); (10000, RQR "Q1")].
Proof. vm_compute. split; reflexivity. Qed.

(** C8 (code bug): in [ban-md.js] (and in [part_000]) a call that ends by
    the timer leaves its [once] listener registered and un-latched: it is
    neither removed nor inert. *)
Theorem C8_banmd_listener_left_live :
  let c := run BanMd.on_event call0 [(10000, EvTimer)] in
  c_replies c = [(10000, RTimeout)] /\ c_listening c = true /\ c_responded c = false
  /\
  let c' := run Part000.on_event call0 [(25000, EvTimer)] in
  c_replies c' = [(25000, RTimeout)] /\ c_listening c' = true /\ c_responded c' = false.
Proof. vm_compute. repeat split; reflexivity. Qed.

(** ** C2 and C9: [createSession] *)

Lemma banmd_createSession_found f c rid w id n s :
  truthy id = true ->
  BanMd.w_reg w !! id = Some n -> BanMd.w_heap w !! n = Some s ->
  BanMd.createSession f c (Some id) rid w = (Ok (id, s), w).
Proof.
  intros Hid Hr Hh.
  unfold BanMd.createSession, BanMd.cs_check, bind, get, ret; cbn.
  by rewrite Hid, Hr, Hh.
Qed.

Lemma banmd_createSession_result f c sid rid w id s w' :
  BanMd.createSession f c sid rid w = (Ok (id, s), w') ->
  (exists n, BanMd.w_reg w' !! id = Some n /\ BanMd.w_heap w' !! n = Some s) /\
  id = match sid with Some x => if truthy x then x else rid | None => rid end.
Proof.
  unfold BanMd.createSession, BanMd.cs_check, BanMd.cs_resume, BanMd.cs_build,
    BanMd.ext, bind, get, put, ret.
  intros H. repeat case_match; simplify_eq; cbn;
    (split; [eexists; rewrite ?lookup_insert_eq; split; eauto|]); auto.
Qed.

(** C2 (counterexample): two calls for ["s1"] interleaved at their first
    [await] both find no session, and each builds its own socket (0 and
    1); the second [sessions.set] replaces the first. *)
Lemma C2_counterexample :
  match BanMd.createSession_interleaved no_failure no_creds
          (Some "s1") (Some "s1") "r" banmd_empty with
  | (Ok ((idA, sA), (idB, sB)), w) =>
      idA = "s1" /\ idB = "s1" /\
      BanMd.s_sock sA = 0%nat /\ BanMd.s_sock sB = 1%nat /\
      BanMd.w_reg w !! "s1" = Some 1%nat
  | _ => False
  end.
Proof. vm_compute. repeat split; reflexivity. Qed.

(** C2 (amended): when a session object is in the registry under the
    requested id, [createSession] returns it as it is, without any
    provider call and without touching the state; hence a call that
    starts after an earlier call for the same id completed gets the same
    session (and socket) back. *)
Theorem C2_createSession_sequential_idempotent :
  (forall f c rid w id n s,
     truthy id = true ->
     BanMd.w_reg w !! id = Some n -> BanMd.w_heap w !! n = Some s ->
     BanMd.createSession f c (Some id) rid w = (Ok (id, s), w))
  /\
  (forall f c rid rid' w id s w',
     truthy id = true ->
     BanMd.createSession f c (Some id) rid w = (Ok (id, s), w') ->
     BanMd.createSession f c (Some id) rid' w' = (Ok (id, s), w')).
Proof.
  split.
  - intros. by apply banmd_createSession_found with n.
  - intros f c rid rid' w id s w' Hid H.
    destruct (banmd_createSession_result _ _ _ _ _ _ _ _ H) as [[n [Hr Hh]] _].
    by apply banmd_createSession_found with n.
Qed.

(** C9: when [createSession] throws (any of the awaited provider calls
    or [makeWASocket]), the registry, the session objects and the sockets
    are those it started from; in [ban-md.js] and in [server.js]. *)
Theorem C9_createSession_failure_no_partial_entry :
  (forall f c sid rid w e w',
     BanMd.createSession f c sid rid w = (Throw e, w') ->
     BanMd.w_reg w' = BanMd.w_reg w /\ BanMd.w_heap w' = BanMd.w_heap w /\
     BanMd.w_socks w' = BanMd.w_socks w)
  /\
  (forall f sid w e w',
     Server.createSession f sid w = (Throw e, w') ->
     Server.sv_reg w' = Server.sv_reg w).
Proof.
  split.
  - intros f c sid rid w e w'.
    unfold BanMd.createSession, BanMd.cs_check, BanMd.cs_resume, BanMd.cs_build,
      BanMd.ext, bind, get, put, ret.
    intros H. repeat case_match; simplify_eq; auto.
  - intros f sid w e w'.
    unfold Server.createSession, Server.ext, bind, get, put, ret.
    intros H. repeat case_match; simplify_eq; auto.
Qed.

(** ** C3, C4, C7: the short cuts of the handlers *)

Lemma banmd_getQR_found f c rid now w id n s :
  truthy id = true -> id <> "new" ->
  BanMd.w_reg w !! id = Some n -> BanMd.w_heap w !! n = Some s ->
  BanMd.getQR f c (Some id) rid now w =
  (Ok match BanMd.sock_user w (BanMd.s_sock s) with
      | Some u => BanMd.QReply id (RAlready (Some u))
      | None =>
          match BanMd.s_lastQR s with
          | Some q =>
              if truthy q && bool_decide (now - BanMd.s_lastQRAt s < BanMd.QR_TTL)
              then BanMd.QReply id (RQR q)
              else BanMd.QWait id (BanMd.s_sock s) (now + BanMd.QR_WAIT)
          | None => BanMd.QWait id (BanMd.s_sock s) (now + BanMd.QR_WAIT)
          end
      end, w).
Proof.
  intros Hid Hnew Hr Hh. unfold BanMd.getQR.
  rewrite Hid, (bool_decide_false _ Hnew); cbn [andb negb].
  unfold bind at 1. rewrite (banmd_createSession_found f c rid w id n s Hid Hr Hh).
  unfold bind, get, ret.
  destruct (BanMd.sock_user w _); [done|].
  destruct (BanMd.s_lastQR s); [|done]. by destruct (_ && _).
Qed.

Lemma part000_getQR_found f c rid now w id n s :
  truthy id = true -> id <> "new" ->
  BanMd.w_reg w !! id = Some n -> BanMd.w_heap w !! n = Some s ->
  Part000.getQR f c (Some id) rid now w =
  (Ok match BanMd.sock_user w (BanMd.s_sock s) with
      | Some u => BanMd.QReply id (RAlready (Some u))
      | None =>
          match BanMd.s_lastQR s with
          | Some q =>
              if truthy q && bool_decide (now - BanMd.s_lastQRAt s < Part000.QR_TTL)
              then BanMd.QReply id (RQR q)
              else BanMd.QWait id (BanMd.s_sock s) (now + Part000.QR_WAIT)
          | None => BanMd.QWait id (BanMd.s_sock s) (now + Part000.QR_WAIT)
          end
      end, w).
Proof.
  intros Hid Hnew Hr Hh. unfold Part000.getQR.
  rewrite Hid, (bool_decide_false _ Hnew); cbn [andb negb].
  unfold bind at 1. rewrite (banmd_createSession_found f c rid w id n s Hid Hr Hh).
  unfold bind, get, ret.
  destruct (BanMd.sock_user w _); [done|].
  destruct (BanMd.s_lastQR s); [|done]. by destruct (_ && _).
Qed.

Lemma banmd_pair_found f c code_of rid w id n s phone :
  truthy (strip_non_digits phone) = true -> truthy id = true ->
  BanMd.w_reg w !! id = Some n -> BanMd.w_heap w !! n = Some s ->
  BanMd.pair f c code_of id phone rid w =
  match BanMd.sock_user w (BanMd.s_sock s) with
  | Some u => (Ok (BanMd.PAlready u), w)
  | None =>
      try_catch (BanMd.ext f (RequestPairingCode (strip_non_digits phone)) ;;;
                 ret (BanMd.PCode (code_of (strip_non_digits phone))))
                (fun e => ret (BanMd.PError e)) w
  end.
Proof.
  intros Hp Hid Hr Hh. unfold BanMd.pair. rewrite Hp; cbn [negb].
  unfold bind at 1. rewrite (banmd_createSession_found f c rid w id n s Hid Hr Hh).
  unfold bind at 1, get. cbn. by destruct (BanMd.sock_user w _).
Qed.



(** The session listener only ever caches a non-empty QR. *)
Lemma banmd_listener_caches_truthy_qr h now u su w h' s q :
  (forall h0 s0 q0, BanMd.w_heap w !! h0 = Some s0 -> BanMd.s_lastQR s0 = Some q0 ->
                    truthy q0 = true) ->
  BanMd.w_heap (BanMd.on_connection_update h now u su w) !! h' = Some s ->
  BanMd.s_lastQR s = Some q -> truthy q = true.
Proof.
  intros Hinv. unfold BanMd.on_connection_update.
  destruct (BanMd.w_heap w !! h) as [s0|] eqn:E; [|eauto].
  cbn. destruct (decide (h = h')) as [->|Hne].
  - rewrite lookup_insert_eq. intros [= <-].
    unfold has_qr.
    destruct (u_qr u) as [q0|]; [destruct (truthy q0) eqn:Et|];
      (destruct (u_connection u) as [c0|]; [destruct (truthy c0)|]);
      destruct su; cbn; intros Hl; try (injection Hl as <-; done); eauto.
  - rewrite lookup_insert_ne by done. eauto.
Qed.

(** C4 (counterexample): [/api/pair/new/256700] creates the session
    ["new"] (the pairing route of [part_000] does the same), and its
    listener caches the QR ["Q1"] at 1000.  At 5000 the cached QR is
    fresh, yet [/api/qr/new] does not serve it: the route reserves ["new"]
    for a fresh session, so it builds one under a random id and waits. *)
Lemma C4_counterexample :
  let w1 := snd (BanMd.pair no_failure no_creds (fun _ => "123") "new" "256700" "r0"
                   banmd_empty) in
  let w2 := BanMd.on_connection_update 0 1000 (mkUpdate (Some "Q1") None) None w1 in
  BanMd.w_reg w2 !! "new" = Some 0%nat
  /\ BanMd.w_heap w2 !! 0%nat = Some (BanMd.mkSess 0 (Some "Q1") 1000 None "init")
  /\ BanMd.sock_user w2 0 = None
  /\ fst (BanMd.getQR no_failure no_creds (Some "new") "r" 5000 w2)
     = Ok (BanMd.QWait "r" 1 15000)
  /\ fst (Part000.getQR no_failure no_creds (Some "new") "r" 5000 w2)
     = Ok (BanMd.QWait "r" 1 30000).
Proof. vm_compute. repeat split; reflexivity. Qed.

(** C4 (amended): for a session that is not linked and caches a QR (a non-empty
    string, as the listener stores), the QR route serves the cached QR
    at once, with no listener and no timer, when it is less than 60 s
    old; otherwise it does not serve it and waits for the next event.
    Both in [ban-md.js] and in [part_000], for an id other than ["new"]. *)
Theorem C4_cached_qr_fresh_only :
  forall f c rid now w id n s q,
    truthy id = true -> id <> "new" ->
    BanMd.w_reg w !! id = Some n -> BanMd.w_heap w !! n = Some s ->
    BanMd.sock_user w (BanMd.s_sock s) = None ->
    BanMd.s_lastQR s = Some q -> truthy q = true ->
    (now - BanMd.s_lastQRAt s < 60000 ->
       BanMd.getQR f c (Some id) rid now w = (Ok (BanMd.QReply id (RQR q)), w)
       /\ Part000.getQR f c (Some id) rid now w = (Ok (BanMd.QReply id (RQR q)), w))
    /\
    (60000 <= now - BanMd.s_lastQRAt s ->
       BanMd.getQR f c (Some id) rid now w
         = (Ok (BanMd.QWait id (BanMd.s_sock s) (now + 10000)), w)
       /\ Part000.getQR f c (Some id) rid now w
         = (Ok (BanMd.QWait id (BanMd.s_sock s) (now + 25000)), w)).
Proof.
  intros f c rid now w id n s q Hid Hnew Hr Hh Hu Hq Ht.
  rewrite (banmd_getQR_found f c rid now w id n s Hid Hnew Hr Hh),
          (part000_getQR_found f c rid now w id n s Hid Hnew Hr Hh), Hu, Hq, Ht.
  unfold BanMd.QR_TTL, Part000.QR_TTL, BanMd.QR_WAIT, Part000.QR_WAIT; cbn [andb].
  split; intros Hlt.
  - by rewrite bool_decide_true.
  - rewrite bool_decide_false by lia. done.
Qed.

(** C7: a phone with no digit gets the invalid-phone error before
    [createSession] runs: the state, and so the provider-call log, is
    unchanged. *)
Theorem C7_empty_phone_rejected :
  forall f c code_of sessionId phone rid w,
    strip_non_digits phone = "" ->
    BanMd.pair f c code_of sessionId phone rid w = (Ok BanMd.PInvalidPhone, w).
Proof.
  intros f c code_of sessionId phone rid w H. unfold BanMd.pair. by rewrite H.
Qed.

(** ** C6: normalization of pairing codes *)

Lemma string_length_append a b :
  String.length (String.append a b) = (String.length a + String.length b)%nat.
Proof. induction a as [|ch a IH]; [reflexivity|]. simpl. rewrite IH. reflexivity. Qed.

Lemma zeros_length n : String.length (Part003.zeros n) = n.
Proof. induction n; cbn; congruence. Qed.

Lemma substring0_length n s :
  (n <= String.length s)%nat -> String.length (String.substring 0 n s) = n.
Proof.
  revert n. induction s as [|a s IH]; intros [|n] H; cbn in *; try lia.
  f_equal. apply IH. lia.
Qed.

Lemma padEnd0_length s n : (n <= String.length (Part003.padEnd0 s n))%nat.
Proof.
  unfold Part003.padEnd0. destruct (Nat.leb n (String.length s)) eqn:E.
  - by apply Nat.leb_le.
  - apply Nat.leb_gt in E. rewrite string_length_append, zeros_length. lia.
Qed.

Lemma code8_length raw : String.length (Part003.code8 raw) = 8%nat.
Proof. unfold Part003.code8. apply substring0_length, padEnd0_length. Qed.

(** C6 (counterexample): [ban-md.js] hands back the provider's code as it
    is: for the raw code ["123"] the reply carries ["123"], 3 characters. *)
Lemma C6_counterexample :
  fst (BanMd.pair no_failure no_creds (fun _ => "123") "s1" "1234567890" "r"
         banmd_empty) = Ok (BanMd.PCode "123")
  /\ String.length "123" <> 8%nat.
Proof. vm_compute. split; [reflexivity | discriminate]. Qed.

(** C6 (amended): only the [/pair] route of [part_003] normalizes: its
    code is the raw code's digits, padded with trailing zeros and cut to
    8 characters, so always 8 characters ("123" gives "12300000"); the
    [/api/pair] route of [ban-md.js] replies with the provider's code
    unchanged. *)
Theorem C6_pairing_code_normalization :
  (forall phone supported raw code,
     Part003.pair phone supported raw = Part003.PCode code ->
     String.length code = 8%nat /\
     exists r, raw = Ok r /\ code = Part003.code8 r)
  /\ Part003.code8 "123" = "12300000"
  /\ (forall f c code_of sessionId phone rid w code w',
        BanMd.pair f c code_of sessionId phone rid w = (Ok (BanMd.PCode code), w') ->
        code = code_of (strip_non_digits phone)).
Proof.
  split; [|split].
  - intros phone supported raw code. unfold Part003.pair.
    destruct phone as [p|]; [|discriminate].
    destruct (truthy p); cbn; [|discriminate].
    destruct supported; [|discriminate].
    destruct raw as [r|e]; intros H; [|discriminate].
    injection H as <-. split; [apply code8_length|eauto].
  - reflexivity.
  - intros f c code_of sessionId phone rid w code w'.
    unfold BanMd.pair, try_catch, BanMd.ext, bind, get, ret.
    intros H. repeat case_match; simplify_eq; done.
Qed.

(** ** C10: eviction on close in [server.js] *)

Lemma server_createSession_wf f sid w h w' :
  Server.wf w -> Server.createSession f sid w = (Ok h, w') -> Server.wf w'.
Proof.
  unfold Server.wf, Server.createSession, Server.ext, bind, get, put, ret.
  intros Hwf H. repeat case_match; simplify_eq; cbn; auto.
  intros k v. destruct (decide (k = sid)) as [->|Hne].
  - rewrite lookup_insert_eq. intros [= <-]. lia.
  - rewrite lookup_insert_ne by done. intros Hk. specialize (Hwf k v Hk). lia.
Qed.

Lemma server_close_wf sid u w :
  Server.wf w -> Server.wf (Server.on_connection_update sid u w).
Proof.
  unfold Server.on_connection_update. intros Hwf.
  destruct (u_connection u) as [c|]; [|done].
  destruct (bool_decide (c = "close")); [|done].
  intros k v; cbn. destruct (decide (k = sid)) as [->|Hne].
  - by rewrite lookup_delete_eq.
  - rewrite lookup_delete_ne by done. apply Hwf.
Qed.

(** C10: in [server.js], a [connection: "close"] update deletes the
    session's entry; the next [createSession] for that id then builds a
    new socket (a handle never handed out before, so not the closed one)
    and registers it. *)
Theorem C10_close_evicts_session :
  forall f w sessionId u hc h w',
    Server.wf w ->
    Server.sv_reg w !! sessionId = Some hc ->
    u_connection u = Some "close" ->
    Server.sv_reg (Server.on_connection_update sessionId u w) !! sessionId = None
    /\
    (Server.createSession f sessionId (Server.on_connection_update sessionId u w)
       = (Ok h, w') ->
     h = Server.sv_next w /\ h <> hc /\ MakeWASocket ∈ Server.sv_log w' /\
     Server.sv_reg w' !! sessionId = Some h).
Proof.
  intros f w sid u hc h w' Hwf Hr Hc.
  assert (Hdel : Server.on_connection_update sid u w
                 = Server.mkWorld (delete sid (Server.sv_reg w))
                                  (Server.sv_next w) (Server.sv_log w)).
  { unfold Server.on_connection_update. rewrite Hc. by rewrite bool_decide_true. }
  rewrite Hdel. cbn. split; [by rewrite lookup_delete_eq|].
  unfold Server.createSession, Server.ext, bind, get, put, ret. cbn.
  rewrite lookup_delete_eq.
  intros H. repeat case_match; simplify_eq; cbn.
  specialize (Hwf _ _ Hr).
  split; [done|]. split; [lia|]. split.
  - set_solver.
  - by rewrite lookup_insert_eq.
Qed.

(* ------------------------------------------------------------------ *)
(** ** Witnesses: the theorems applied at concrete inputs *)

Lemma C2_witness :
  BanMd.createSession no_failure no_creds (Some "s1") "r" banmd_linked
    = (Ok ("s1", BanMd.mkSess 0 None 0 (Some "u1") "open"), banmd_linked)
  /\ BanMd.createSession no_failure no_creds (Some "s1") "r2"
       (snd (BanMd.createSession no_failure no_creds (Some "s1") "r" banmd_empty))
     = (Ok ("s1", BanMd.mkSess 0 None 0 None "init"),
        snd (BanMd.createSession no_failure no_creds (Some "s1") "r" banmd_empty)).
Proof.
  split.
  - apply (proj1 C2_createSession_sequential_idempotent
             no_failure no_creds "r" banmd_linked "s1" 0%nat); vm_compute; reflexivity.
  - apply (proj2 C2_createSession_sequential_idempotent
             no_failure no_creds "r" "r2" banmd_empty "s1"); [reflexivity|].
    vm_compute. reflexivity.
Defined.


Lemma C4_witness :
  (BanMd.getQR no_failure no_creds (Some "s1") "r" 5000 banmd_cached
     = (Ok (BanMd.QReply "s1" (RQR "Q1")), banmd_cached)
   /\ Part000.getQR no_failure no_creds (Some "s1") "r" 5000 banmd_cached
     = (Ok (BanMd.QReply "s1" (RQR "Q1")), banmd_cached))
  /\
  (BanMd.getQR no_failure no_creds (Some "s1") "r" 70000 banmd_cached
     = (Ok (BanMd.QWait "s1" 0 (70000 + 10000)), banmd_cached)
   /\ Part000.getQR no_failure no_creds (Some "s1") "r" 70000 banmd_cached
     = (Ok (BanMd.QWait "s1" 0 (70000 + 25000)), banmd_cached)).
Proof.
  split.
  - apply (C4_cached_qr_fresh_only no_failure no_creds "r" 5000 banmd_cached "s1" 0%nat
             (BanMd.mkSess 0 (Some "Q1") 1000 None "connecting") "Q1");
      first [reflexivity | discriminate | vm_compute; reflexivity | cbn; lia].
  - apply (C4_cached_qr_fresh_only no_failure no_creds "r" 70000 banmd_cached "s1" 0%nat
             (BanMd.mkSess 0 (Some "Q1") 1000 None "connecting") "Q1");
      first [reflexivity | discriminate | vm_compute; reflexivity | cbn; lia].
Defined.

Lemma C5_witness :
  head (c_replies (run BanMd.on_event call0
          ([(500, EvUpdate (mkUpdate None (Some "connecting")) None)]
           ++ [(10000, EvTimer)] ++ [])))
  = Some (0 + 10000, RTimeout)
  /\
  head (c_replies (run Part000.on_event call0
          ([(500, EvUpdate (mkUpdate None (Some "connecting")) None)]
           ++ [(25000, EvTimer)] ++ [])))
  = Some (0 + 25000, RTimeout).
Proof.
  split.
  - apply (proj1 C5_timeout_at_bound no_failure no_creds (Some "s1") "r" 0 banmd_empty
             "s1" 0%nat 10000
             (snd (BanMd.getQR no_failure no_creds (Some "s1") "r" 0 banmd_empty))).
    + vm_compute. reflexivity.
    + repeat constructor.
  - apply (proj2 C5_timeout_at_bound no_failure no_creds (Some "s1") "r" 0 banmd_empty
             "s1" 0%nat 25000
             (snd (Part000.getQR no_failure no_creds (Some "s1") "r" 0 banmd_empty))).
    + vm_compute. reflexivity.
    + repeat constructor.
Defined.

Lemma C6_witness :
  (String.length "12340000" = 8%nat /\
   exists r, (Ok "12-34" : result string) = Ok r /\ "12340000" = Part003.code8 r)
  /\ "123" = (fun _ : string => "123") (strip_non_digits "+256 700").
Proof.
  split.
  - apply (proj1 C6_pairing_code_normalization (Some "256700") true (Ok "12-34")).
    reflexivity.
  - apply (proj2 (proj2 C6_pairing_code_normalization) no_failure no_creds
             (fun _ => "123") "s1" "+256 700" "r" banmd_empty "123"
             (snd (BanMd.pair no_failure no_creds (fun _ => "123") "s1" "+256 700" "r"
                     banmd_empty))).
    vm_compute. reflexivity.
Defined.

Lemma C7_witness :
  BanMd.pair no_failure no_creds (fun _ => "123") "s1" "+()-" "r" banmd_empty
    = (Ok BanMd.PInvalidPhone, banmd_empty).
Proof. apply C7_empty_phone_rejected. reflexivity. Defined.

Lemma C9_witness :
  (BanMd.w_reg (snd (BanMd.createSession fail_make no_creds (Some "s1") "r" banmd_empty))
     = BanMd.w_reg banmd_empty
   /\ BanMd.w_heap (snd (BanMd.createSession fail_make no_creds (Some "s1") "r" banmd_empty))
     = BanMd.w_heap banmd_empty
   /\ BanMd.w_socks (snd (BanMd.createSession fail_make no_creds (Some "s1") "r" banmd_empty))
     = BanMd.w_socks banmd_empty)
  /\ Server.sv_reg (snd (Server.createSession fail_make "s1" server_empty))
     = Server.sv_reg server_empty.
Proof.
  split.
  - apply (proj1 C9_createSession_failure_no_partial_entry fail_make no_creds (Some "s1")
             "r" banmd_empty "provider error").
    vm_compute. reflexivity.
  - apply (proj2 C9_createSession_failure_no_partial_entry fail_make "s1" server_empty
             "provider error").
    vm_compute. reflexivity.
Defined.

Lemma C10_witness :
  Server.sv_reg (Server.on_connection_update "s1" (mkUpdate None (Some "close")) server_s1)
    !! "s1" = None
  /\
  (1%nat = Server.sv_next server_s1 /\ 1%nat <> 0%nat /\
   MakeWASocket ∈ Server.sv_log (snd (Server.createSession no_failure "s1"
        (Server.on_connection_update "s1" (mkUpdate None (Some "close")) server_s1))) /\
   Server.sv_reg (snd (Server.createSession no_failure "s1"
        (Server.on_connection_update "s1" (mkUpdate None (Some "close")) server_s1)))
     !! "s1" = Some 1%nat).
Proof.
  destruct (C10_close_evicts_session no_failure server_s1 "s1"
              (mkUpdate None (Some "close")) 0%nat 1%nat
              (snd (Server.createSession no_failure "s1"
                 (Server.on_connection_update "s1" (mkUpdate None (Some "close"))
                    server_s1))))
    as [H1 H2].
  - intros k v Hk. cbn in Hk. apply lookup_singleton_Some in Hk as [_ <-]. cbn. lia.
  - vm_compute. reflexivity.
  - reflexivity.
  - split; [exact H1|]. apply H2. vm_compute. reflexivity.
Defined.

(* ================================================================== *)
(** * Further properties of the handlers *)

Lemma has_qr_truthy u q : has_qr u = Some q -> truthy q = true.
Proof.
  unfold has_qr. destruct (u_qr u) as [q0|]; [|done].
  destruct (truthy q0) eqn:E; [|done]. by intros [= <-].
Qed.

Lemma strip_non_digits_idem s :
  strip_non_digits (strip_non_digits s) = strip_non_digits s.
Proof.
  induction s as [|ch s IH]; [done|]. cbn.
  destruct (is_digit ch) eqn:E; [cbn; rewrite E, IH; reflexivity|exact IH].
Qed.

(** ** [ban-md.js]: [/api/me], the listener, [/api/pair], the page *)

(** X: a session returned by [createSession] is known to [/api/me], which
    reports that session object's [user] and [connection] and changes
    nothing. *)
Lemma banmd_whoami_after_create f c sid rid w id s w' :
  BanMd.createSession f c sid rid w = (Ok (id, s), w') ->
  BanMd.whoami id w' = (Ok (BanMd.MeInfo (BanMd.s_user s) (BanMd.s_connection s)), w').
Proof.
  intros H. destruct (banmd_createSession_result _ _ _ _ _ _ _ _ H) as [[n [Hr Hh]] _].
  unfold BanMd.whoami, bind, get, ret; cbv beta iota. by rewrite Hr, Hh.
Qed.

(** X: after the session's [connection.update] listener has run, [/api/me]
    reports [sock.user] if the socket had one, else the user recorded
    before (a recorded user is never cleared), and the update's
    [connection] if it is non-empty, else the previous one. *)
Lemma banmd_whoami_after_listener sid h now u su w s :
  BanMd.w_reg w !! sid = Some h -> BanMd.w_heap w !! h = Some s ->
  BanMd.whoami sid (BanMd.on_connection_update h now u su w) =
  (Ok (BanMd.MeInfo
         (match su with Some usr => Some usr | None => BanMd.s_user s end)
         (match u_connection u with
          | Some c => if truthy c then c else BanMd.s_connection s
          | None => BanMd.s_connection s
          end)),
   BanMd.on_connection_update h now u su w).
Proof.
  intros Hr Hh. unfold BanMd.whoami, BanMd.on_connection_update, bind, get, ret.
  rewrite Hh. cbv beta iota zeta. cbn [BanMd.w_reg BanMd.w_heap].
  rewrite Hr, lookup_insert_eq.
  destruct (has_qr u); destruct (u_connection u) as [c0|]; try destruct (truthy c0);
    destruct su; reflexivity.
Qed.

(** X: once the listener has cached a QR received at [t] on a session
    whose socket is not linked, [/api/qr] for that session at any [now]
    before [t + 60 s] serves that QR at once, changing nothing. *)
Lemma banmd_listener_qr_served f c rid sid h s t now u su w q :
  truthy sid = true -> sid <> "new" ->
  BanMd.w_reg w !! sid = Some h -> BanMd.w_heap w !! h = Some s -> BanMd.s_sock s = h ->
  BanMd.sock_user w h = None ->
  has_qr u = Some q -> now < t + BanMd.QR_TTL ->
  BanMd.getQR f c (Some sid) rid now (BanMd.on_connection_update h t u su w) =
  (Ok (BanMd.QReply sid (RQR q)), BanMd.on_connection_update h t u su w).
Proof.
  intros Hid Hnew Hr Hh Hs Hu Hq Ht.
  pose proof (has_qr_truthy _ _ Hq) as Htq.
  unfold BanMd.on_connection_update. rewrite Hh, Hq. cbv zeta.
  destruct (u_connection u) as [c0|]; [destruct (truthy c0)|]; destruct su as [usr|];
    (erewrite banmd_getQR_found;
     [|exact Hid|exact Hnew|cbn [BanMd.w_reg]; exact Hr|cbn [BanMd.w_heap]; apply lookup_insert_eq]);
    unfold BanMd.sock_user in *; cbn [BanMd.w_socks BanMd.s_sock BanMd.s_lastQR BanMd.s_lastQRAt];
    rewrite Hs, Hu, Htq, bool_decide_true by (unfold BanMd.QR_TTL in *; lia);
    reflexivity.
Qed.

(** X: on an existing session whose socket is not linked, [/api/pair]
    passes exactly the digits of the phone to [requestPairingCode]; if
    that call succeeds it replies with its code, the call being the only
    change to the state; if it throws, the error is caught and returned
    as an error reply, with the state unchanged. *)
Lemma banmd_pair_unlinked f c code_of rid w sid n s phone :
  truthy (strip_non_digits phone) = true -> truthy sid = true ->
  BanMd.w_reg w !! sid = Some n -> BanMd.w_heap w !! n = Some s ->
  BanMd.sock_user w (BanMd.s_sock s) = None ->
  (f (RequestPairingCode (strip_non_digits phone)) = false ->
   BanMd.pair f c code_of sid phone rid w =
   (Ok (BanMd.PCode (code_of (strip_non_digits phone))),
    BanMd.mkWorld (BanMd.w_reg w) (BanMd.w_heap w) (BanMd.w_socks w) (BanMd.w_next w)
                  (BanMd.w_log w ++ [RequestPairingCode (strip_non_digits phone)])))
  /\
  (f (RequestPairingCode (strip_non_digits phone)) = true ->
   exists e, BanMd.pair f c code_of sid phone rid w = (Ok (BanMd.PError e), w)).
Proof.
  intros Hp Hid Hr Hh Hu.
  rewrite (banmd_pair_found f c code_of rid w sid n s phone Hp Hid Hr Hh), Hu.
  unfold try_catch, bind, ret, BanMd.ext.
  split; intros Hf; rewrite Hf; [reflexivity|eexists; reflexivity].
Qed.

(** X: what the page's [getPair()] sends is made of digits only, and the
    server's [/api/pair] never answers it with the invalid-phone error. *)
Lemma banmd_client_pair_accepted field p f c code_of sid rid w :
  BanMd.client_getPair field = BanMd.CFetch p ->
  strip_non_digits p = p /\
  fst (BanMd.pair f c code_of sid p rid w) <> Ok BanMd.PInvalidPhone.
Proof.
  unfold BanMd.client_getPair.
  destruct (truthy (strip_non_digits field)) eqn:E; cbn [negb]; [|discriminate].
  intros [= <-]. rewrite strip_non_digits_idem. split; [done|].
  unfold BanMd.pair; cbv zeta. rewrite strip_non_digits_idem, E. cbn [negb].
  unfold bind at 1.
  destruct (BanMd.createSession f c (Some sid) rid w) as [[[id s]|e] w1]; cbn; [|discriminate].
  destruct (BanMd.sock_user w1 _); cbn; [discriminate|].
  unfold try_catch, BanMd.ext, bind, ret. destruct (f _); cbn; discriminate.
Qed.

(** X: [/api/qr] with no id, the id [""] or the id ["new"] never reuses a
    registered session (not even one named ["new"]): when the id drawn
    for it is free, a successful call registers a fresh socket under that
    id, touches no other entry, and performs the three construction calls
    of the provider. *)
Lemma banmd_getQR_fresh_for_new f c p rid now w r w' :
  p = None \/ p = Some "" \/ p = Some "new" ->
  BanMd.w_reg w !! rid = None ->
  BanMd.getQR f c p rid now w = (Ok r, w') ->
  BanMd.w_reg w' = <[rid := BanMd.w_next w]> (BanMd.w_reg w) /\
  BanMd.w_log w' = BanMd.w_log w ++ [UseMultiFileAuthState ("sessions/" +:+ rid);
                                     FetchLatestBaileysVersion; MakeWASocket].
Proof.
  intros Hp Hr.
  assert (BanMd.getQR f c p rid now w = BanMd.getQR f c None rid now w) as ->
    by (destruct Hp as [->|[->| ->]]; reflexivity).
  unfold BanMd.getQR, BanMd.createSession, BanMd.cs_check, BanMd.cs_resume,
    BanMd.cs_build, BanMd.ext, bind, get, put, ret.
  cbv beta iota zeta. rewrite Hr.
  intros H. repeat case_match; simplify_eq; cbn; by rewrite <- ?app_assoc.
Qed.

Ltac solve_prefix := first [reflexivity | repeat apply prefix_app_r; reflexivity].

(** X: [createSession] of [ban-md.js] changes no registry entry but the
    one of the id it resolves, no session object allocated before it ran,
    never moves the allocator back, and only appends to the provider
    log, whether it succeeds or throws. *)
Lemma banmd_createSession_frame f c sid rid w r w' :
  BanMd.createSession f c sid rid w = (r, w') ->
  (forall k, k <> match sid with Some x => if truthy x then x else rid | None => rid end ->
             BanMd.w_reg w' !! k = BanMd.w_reg w !! k) /\
  (forall l, (l < BanMd.w_next w)%nat -> BanMd.w_heap w' !! l = BanMd.w_heap w !! l) /\
  (BanMd.w_next w <= BanMd.w_next w')%nat /\
  BanMd.w_log w `prefix_of` BanMd.w_log w'.
Proof.
  unfold BanMd.createSession, BanMd.cs_check, BanMd.cs_resume, BanMd.cs_build,
    BanMd.ext, bind, get, put, ret.
  cbv beta iota zeta.
  intros H. repeat case_match; simplify_eq; cbn;
    (split_and!;
     [intros k Hk; rewrite ?lookup_insert_ne by done; reflexivity
     |intros l Hl; rewrite ?lookup_insert_ne by lia; reflexivity
     |lia
     |solve_prefix]).
Qed.

(** ** [server.js]: [createSession] and [/api/pair] *)

(** X: [createSession] of [server.js] changes no registry entry but the
    requested one, never moves the allocator back, and only appends to
    the provider log, whether it succeeds or throws. *)
Lemma server_createSession_frame f sid w r w' :
  Server.createSession f sid w = (r, w') ->
  (forall k, k <> sid -> Server.sv_reg w' !! k = Server.sv_reg w !! k) /\
  (Server.sv_next w <= Server.sv_next w')%nat /\
  Server.sv_log w `prefix_of` Server.sv_log w'.
Proof.
  unfold Server.createSession, Server.ext, bind, get, put, ret.
  cbv beta iota zeta.
  intros H. repeat case_match; simplify_eq; cbn;
    (split_and!;
     [intros k Hk; rewrite ?lookup_insert_ne by done; reflexivity
     |lia
     |solve_prefix]).
Qed.

(** X: [/api/pair] of [server.js] never throws: it replies with the code
    [requestPairingCode] resolved to for the phone exactly as given in
    the URL, that call being the last one logged, or with the failure
    reply, which happens only when a provider call of this request threw:
    one of the three calls that build a missing session, or
    [requestPairingCode] itself. *)
Lemma server_pair_outcome f code_of sid phone w :
  match Server.pair f code_of sid phone w with
  | (Ok (Server.SPCode code), w') =>
      code = code_of phone /\
      exists l, Server.sv_log w' = Server.sv_log w ++ l ++ [RequestPairingCode phone]
  | (Ok Server.SPFail, _) =>
      (Server.sv_reg w !! sid = None /\
       (f (UseMultiFileAuthState ("sessions/" +:+ sid)) = true \/
        f FetchLatestBaileysVersion = true \/ f MakeWASocket = true))
      \/ f (RequestPairingCode phone) = true
  | (Throw _, _) => False
  end.
Proof.
  unfold Server.pair, try_catch, Server.createSession, Server.ext, bind, get, put, ret.
  cbv beta iota zeta.
  destruct (Server.sv_reg w !! sid) eqn:Hr.
  - destruct (f (RequestPairingCode phone)) eqn:Hf.
    + right. reflexivity.
    + split; [reflexivity|]. exists []. reflexivity.
  - destruct (f (UseMultiFileAuthState _)) eqn:H1.
    { left. split; [reflexivity|]. left. reflexivity. }
    destruct (f FetchLatestBaileysVersion) eqn:H2.
    { left. split; [reflexivity|]. right; left. reflexivity. }
    destruct (f MakeWASocket) eqn:H3.
    { left. split; [reflexivity|]. right; right. reflexivity. }
    destruct (f (RequestPairingCode phone)) eqn:Hf.
    { right. reflexivity. }
    split; [reflexivity|].
    exists [UseMultiFileAuthState ("sessions/" +:+ sid); FetchLatestBaileysVersion; MakeWASocket].
    cbn [Server.sv_log]. rewrite <- !app_assoc. reflexivity.
Qed.

(** ** [part_000]: session ids and the session listener *)

Lemma from_hex_equation c1 c2 s :
  from_hex (String c1 (String c2 s)) =
  match Byte.of_nat (16 * hex_val c1 + hex_val c2)%nat with
  | Some b => b :: from_hex s
  | None => []
  end.
Proof. reflexivity. Qed.

Lemma byte_hex_from_hex b s :
  from_hex (String.append (Part000.byte_hex b) s) = b :: from_hex s.
Proof.
  assert (exists c1 c2, Part000.byte_hex b = String c1 (String c2 EmptyString) /\
                        Byte.of_nat (16 * hex_val c1 + hex_val c2)%nat = Some b)
    as (c1 & c2 & -> & E)
    by (destruct b; eexists _, _; (split; [reflexivity|vm_compute; reflexivity])).
  change (String.append (String c1 (String c2 EmptyString)) s) with (String c1 (String c2 s)).
  rewrite (from_hex_equation c1 c2 s), E. reflexivity.
Qed.

Lemma to_hex_from_hex bs : from_hex (Part000.to_hex bs) = bs.
Proof.
  induction bs as [|b bs IH]; [reflexivity|].
  cbn [Part000.to_hex]. by rewrite byte_hex_from_hex, IH.
Qed.

(** X: [newSessionId] is injective in the random bytes: different draws
    give different session ids. *)
Lemma part000_newSessionId_injective a b :
  Part000.newSessionId a = Part000.newSessionId b -> a = b.
Proof.
  unfold Part000.newSessionId. intros [= E].
  change (Part000.to_hex a = Part000.to_hex b) in E.
  apply (f_equal from_hex) in E. by rewrite !to_hex_from_hex in E.
Qed.

Lemma part000_step_sent sid st e :
  Part000.l_sent st = true ->
  Part000.l_sent (Part000.on_lsn_event sid st e) = true /\
  Part000.l_msgs (Part000.on_lsn_event sid st e) = Part000.l_msgs st.
Proof.
  intros Hs. destruct e as [u now [id|]|b]; cbn.
  - destruct (has_qr u); cbn; rewrite Hs; destruct (is_open u); cbn; auto.
  - destruct (has_qr u); cbn; auto.
  - destruct (Part000.l_inflight st); cbn; auto.
Qed.

Lemma part000_sent_stays sid st es :
  Part000.l_sent st = true ->
  Part000.l_sent (Part000.run_lsn sid st es) = true /\
  Part000.l_msgs (Part000.run_lsn sid st es) = Part000.l_msgs st.
Proof.
  revert st. induction es as [|e es IH]; intros st Hs; [done|].
  change (Part000.run_lsn sid st (e :: es))
    with (Part000.run_lsn sid (Part000.on_lsn_event sid st e) es).
  destruct (part000_step_sent sid st e Hs) as [H1 H2].
  destruct (IH _ H1) as [H3 H4]. split; [exact H3|]. by rewrite H4.
Qed.

(** X: the settling of a pending [sendMessage], fulfilled or rejected,
    sets [sentSessionMsg]; from then on the listener sends no message,
    whatever updates follow. *)
Lemma part000_settle_latches sid st b es :
  (0 < Part000.l_inflight st)%nat ->
  Part000.l_sent (Part000.run_lsn sid (Part000.on_lsn_event sid st (Part000.LSendSettled b)) es)
    = true /\
  Part000.l_msgs (Part000.run_lsn sid (Part000.on_lsn_event sid st (Part000.LSendSettled b)) es)
    = Part000.l_msgs st.
Proof.
  intros Hi. destruct (Part000.l_inflight st) as [|n] eqn:E; [lia|].
  destruct (part000_sent_stays sid (Part000.on_lsn_event sid st (Part000.LSendSettled b)) es)
    as [H1 H2]; [cbn; by rewrite E|].
  split; [exact H1|]. rewrite H2. cbn. by rewrite E.
Qed.

(** X: while no [sendMessage] has settled, every [connection: "open"]
    update that sees a user id sends the session message again: [k] such
    updates send [k] messages. *)
Lemma part000_open_updates_before_settle sid st es :
  Part000.l_sent st = false ->
  Forall (fun e => exists u now id, e = Part000.LUpdate u now (Some id) /\
                                    is_open u = true /\ truthy id = true) es ->
  length (Part000.l_msgs (Part000.run_lsn sid st es))
    = (length (Part000.l_msgs st) + length es)%nat /\
  Part000.l_inflight (Part000.run_lsn sid st es)
    = (Part000.l_inflight st + length es)%nat.
Proof.
  revert st. induction es as [|e es IH]; intros st Hs Hall; [cbn; lia|].
  inversion Hall as [|? ? [u [now [id [-> [Ho Ht]]]]] Hrest]; subst.
  change (Part000.run_lsn sid st (Part000.LUpdate u now (Some id) :: es))
    with (Part000.run_lsn sid (Part000.on_lsn_event sid st (Part000.LUpdate u now (Some id))) es).
  assert (Part000.l_sent (Part000.on_lsn_event sid st (Part000.LUpdate u now (Some id))) = false
          /\ length (Part000.l_msgs (Part000.on_lsn_event sid st (Part000.LUpdate u now (Some id))))
             = S (length (Part000.l_msgs st))
          /\ Part000.l_inflight (Part000.on_lsn_event sid st (Part000.LUpdate u now (Some id)))
             = S (Part000.l_inflight st)) as (H1 & H2 & H3).
  { cbn. destruct (has_qr u); cbn; rewrite Hs, Ho, Ht; cbn;
      rewrite ?length_app; cbn; split_and!; auto; lia. }
  destruct (IH _ H1 Hrest) as [H4 H5]. rewrite H4, H5, H2, H3. cbn [length]. lia.
Qed.

(** ** [part_002]: the pair-code store *)

(** X: a code issued at [t] is valid up to and including [t + 5 min]:
    [/api/pair/validate] says so and [/api/qr/:code.png] renders
    ["PAIR:" + code], both leaving the store as [newCode] left it. *)
Lemma part002_new_code_valid code t now st :
  truthy code = true -> now <= t + Part002.CODE_TTL_MS ->
  Part002.validate (Some code) now (Part002.newCode code t st).2
    = (Part002.VResult code true, (Part002.newCode code t st).2) /\
  Part002.qr_png code now (Part002.newCode code t st).2
    = (Part002.PngQR (String.append "PAIR:" code), (Part002.newCode code t st).2).
Proof.
  intros Hc Ht. unfold Part002.validate, Part002.qr_png, Part002.isValid, Part002.newCode.
  cbn [snd]. rewrite Hc, lookup_insert_eq. cbn [Part002.expiresAt].
  rewrite bool_decide_false by lia. split; reflexivity.
Qed.

(** X: a code checked after its expiry is reported invalid and deleted;
    from then on it is invalid at every time, even one before the
    expiry, and the store no longer changes on a check. *)
Lemma part002_expired_stays_invalid code now st r :
  st !! code = Some r -> Part002.expiresAt r < now ->
  Part002.isValid code now st = (false, delete code st) /\
  forall now', Part002.isValid code now' (delete code st) = (false, delete code st).
Proof.
  intros Hr Hn. unfold Part002.isValid. rewrite Hr, bool_decide_true by lia.
  split; [done|]. intros now'. by rewrite lookup_delete_eq.
Qed.

(** X: for a non-empty code, [/api/pair/validate] and [/api/qr/:code.png]
    agree: the PNG is rendered exactly when validate answers [true], and
    both leave the same store. *)
Lemma part002_validate_png_agree code now st :
  truthy code = true ->
  exists v st',
    Part002.validate (Some code) now st = (Part002.VResult code v, st') /\
    Part002.qr_png code now st
      = (if v then Part002.PngQR (String.append "PAIR:" code) else Part002.PngNotFound, st').
Proof.
  intros Hc. unfold Part002.validate, Part002.qr_png. rewrite Hc.
  destruct (Part002.isValid code now st) as [v st']. exists v, st'. by destruct v.
Qed.

(** ** [part_003]: the plain-object registry, [/status] and [/qr] *)

(** X: [sessions] is a plain object: for an id that names a member of
    [Object.prototype] ("constructor", "toString", ...) and has no own
    entry, [createSession] returns the inherited member without creating
    a socket, and [/status] and [/qr] throw reading its [sock], changing
    nothing. *)
Lemma part003_proto_key_session f ready k w :
  k ∈ Part003.proto_keys -> Part003.p_sessions w !! k = None ->
  Part003.createSession f k w = (Ok (Part003.VInherited k), w) /\
  (exists e, Part003.status ready k w = (Throw e, w)) /\
  (exists e, Part003.qr_start f k w = (Throw e, w)).
Proof.
  intros Hk Hn.
  assert (Part003.read w k = Some (Part003.VInherited k)) as Hrd
    by (unfold Part003.read; rewrite Hn; by rewrite bool_decide_true).
  unfold Part003.qr_start, Part003.status, Part003.createSession, Part003.sock_of,
    bind, get, ret, throw.
  cbv beta iota. rewrite Hrd. split_and!; eauto.
Qed.

Lemma part003_qr_start_registered f sid h w :
  Part003.p_sessions w !! sid = Some h ->
  Part003.qr_start f sid w =
  (Ok h, Part003.mkWorld (Part003.p_sessions w) (Part003.p_next w) (Part003.p_log w)
           (<[h := S (default O (Part003.p_listeners w !! h))]> (Part003.p_listeners w))).
Proof.
  intros Hs. unfold Part003.qr_start, Part003.createSession, Part003.read, Part003.sock_of,
    bind, get, put, ret.
  cbv beta iota. rewrite Hs. cbv beta iota zeta.
  by destruct (Part003.p_listeners w !! h).
Qed.

(** X: [/qr] never removes the listener it adds: [n] requests for a
    registered session leave [n] more [connection.update] listeners on
    its socket, and change neither the registry nor the provider log. *)
Lemma part003_qr_listeners_accumulate f sid h n w :
  Part003.p_sessions w !! sid = Some h ->
  exists w', qr_n f sid n w = (Ok tt, w') /\
    Part003.p_sessions w' = Part003.p_sessions w /\
    Part003.p_log w' = Part003.p_log w /\
    default O (Part003.p_listeners w' !! h)
      = (default O (Part003.p_listeners w !! h) + n)%nat.
Proof.
  revert w. induction n as [|n IH]; intros w Hs.
  - exists w. split_and!; [reflexivity..|]. lia.
  - cbn [qr_n]. unfold bind at 1. rewrite (part003_qr_start_registered f sid h w Hs).
    destruct (IH (Part003.mkWorld (Part003.p_sessions w) (Part003.p_next w) (Part003.p_log w)
                   (<[h := S (default O (Part003.p_listeners w !! h))]> (Part003.p_listeners w))))
      as [w' (H1 & H2 & H3 & H4)]; [exact Hs|].
    exists w'. split_and!; [exact H1|exact H2|exact H3|].
    rewrite H4. cbn [Part003.p_listeners]. rewrite lookup_insert_eq. cbn. lia.
Qed.

(** X: a session [createSession] returns for an id that is not a member
    of [Object.prototype] is then seen by [/status], which reports it as
    "open", "close" or "connecting", never "none", and changes nothing. *)
Lemma part003_status_after_create f ready sid w v w' :
  sid ∉ Part003.proto_keys ->
  Part003.createSession f sid w = (Ok v, w') ->
  exists st, Part003.status ready sid w' = (Ok (Part003.StStatus sid st), w') /\
             st ∈ ["open"; "close"; "connecting"].
Proof.
  intros Hk.
  assert (forall w0 h, Part003.read w0 sid = Some (Part003.VSession h) ->
            exists st, Part003.status ready sid w0 = (Ok (Part003.StStatus sid st), w0) /\
                       st ∈ ["open"; "close"; "connecting"]) as Hst.
  { intros w0 h Hrd. unfold Part003.status, Part003.sock_of, bind, get, ret.
    cbv beta iota. rewrite Hrd. cbv beta iota zeta.
    eexists; split; [reflexivity|].
    destruct (bool_decide (ready h = 3)); [set_solver|].
    destruct (bool_decide (ready h = 1)); set_solver. }
  unfold Part003.createSession, Part003.ext, bind, get, put, ret.
  cbv beta iota zeta.
  destruct (Part003.read w sid) as [v0|] eqn:Hrd.
  - intros [= <- <-]. destruct v0 as [h|nm]; [eauto|].
    exfalso. unfold Part003.read in Hrd.
    destruct (Part003.p_sessions w !! sid); [discriminate|].
    case_bool_decide; [|discriminate]. injection Hrd as ->. done.
  - intros H. repeat case_match; simplify_eq.
    eapply Hst. unfold Part003.read. cbn [Part003.p_sessions].
    by rewrite lookup_insert_eq.
Qed.

Lemma qr_collect_fold_none ups acc :
  fold_left (fun acc u => match has_qr u with Some q => Some q | None => acc end) ups acc
    = None <-> acc = None /\ Forall (fun u => has_qr u = None) ups.
Proof.
  revert acc. induction ups as [|u ups IH]; intros acc; cbn.
  - split; [intros ->; auto|intros [-> _]; done].
  - rewrite IH, Forall_cons. destruct (has_qr u); split; intros; naive_solver.
Qed.

Lemma qr_collect_fold_keep ups acc :
  Forall (fun u => has_qr u = None) ups ->
  fold_left (fun acc u => match has_qr u with Some q => Some q | None => acc end) ups acc
    = acc.
Proof.
  revert acc. induction ups as [|u ups IH]; intros acc Hall; [done|].
  inversion Hall as [|? ? Hu Hrest]; subst. cbn. rewrite Hu. by apply IH.
Qed.

(** X: [/qr] answers "QR not available yet." exactly when none of the
    updates delivered within its 2 s carried a non-empty QR. *)
Lemma part003_qr_not_yet ups :
  Part003.qr_reply ups = Part003.QNotYet <-> Forall (fun u => has_qr u = None) ups.
Proof.
  unfold Part003.qr_reply, Part003.qr_collect.
  destruct (fold_left _ ups None) as [q|] eqn:E.
  - split; [discriminate|]. intros Hall.
    pose proof (proj2 (qr_collect_fold_none ups None) (conj eq_refl Hall)). congruence.
  - split; [|done]. intros _. exact (proj2 (proj1 (qr_collect_fold_none ups None) E)).
Qed.

(** X: [/qr] replies with the last non-empty QR delivered within its 2 s
    (later updates without a QR do not reset it), as a data URL. *)
Lemma part003_qr_last_wins pre u post q :
  has_qr u = Some q -> Forall (fun u => has_qr u = None) post ->
  Part003.qr_reply (pre ++ u :: post)
    = Part003.QOk (String.append "data:image/png;base64," q).
Proof.
  intros Hq Hpost. unfold Part003.qr_reply, Part003.qr_collect.
  rewrite fold_left_app. cbn [fold_left]. rewrite Hq, qr_collect_fold_keep by exact Hpost.
  reflexivity.
Qed.

(* ------------------------------------------------------------------ *)
(** ** Witnesses of the further properties *)

Lemma banmd_whoami_after_create_witness :
  BanMd.whoami "s1" (snd (BanMd.createSession no_failure no_creds (Some "s1") "r" banmd_empty))
  = (Ok (BanMd.MeInfo None "init"),
     snd (BanMd.createSession no_failure no_creds (Some "s1") "r" banmd_empty)).
Proof.
  apply (banmd_whoami_after_create no_failure no_creds (Some "s1") "r" banmd_empty "s1"
           (BanMd.mkSess 0 None 0 None "init")).
  vm_compute. reflexivity.
Defined.

Lemma banmd_whoami_after_listener_witness :
  BanMd.whoami "s1"
    (BanMd.on_connection_update 0 5000 (mkUpdate None (Some "open")) (Some "u1") banmd_cached)
  = (Ok (BanMd.MeInfo (Some "u1") "open"),
     BanMd.on_connection_update 0 5000 (mkUpdate None (Some "open")) (Some "u1") banmd_cached).
Proof.
  apply (banmd_whoami_after_listener "s1" 0%nat 5000 (mkUpdate None (Some "open")) (Some "u1")
           banmd_cached (BanMd.mkSess 0 (Some "Q1") 1000 None "connecting"));
    vm_compute; reflexivity.
Defined.

Lemma banmd_listener_qr_served_witness :
  BanMd.getQR no_failure no_creds (Some "s1") "r" 6000
    (BanMd.on_connection_update 0 5000 (mkUpdate (Some "Q2") None) None banmd_cached)
  = (Ok (BanMd.QReply "s1" (RQR "Q2")),
     BanMd.on_connection_update 0 5000 (mkUpdate (Some "Q2") None) None banmd_cached).
Proof.
  apply (banmd_listener_qr_served no_failure no_creds "r" "s1" 0%nat
           (BanMd.mkSess 0 (Some "Q1") 1000 None "connecting") 5000 6000
           (mkUpdate (Some "Q2") None) None banmd_cached "Q2");
    first [reflexivity | discriminate | vm_compute; reflexivity].
Defined.

Lemma banmd_pair_unlinked_witness :
  BanMd.pair no_failure no_creds (fun _ => "123") "s1" "+256 700" "r" banmd_cached
  = (Ok (BanMd.PCode "123"),
     BanMd.mkWorld (BanMd.w_reg banmd_cached) (BanMd.w_heap banmd_cached)
       (BanMd.w_socks banmd_cached) (BanMd.w_next banmd_cached)
       (BanMd.w_log banmd_cached ++ [RequestPairingCode "256700"])).
Proof.
  refine (proj1 (banmd_pair_unlinked no_failure no_creds (fun _ => "123") "r" banmd_cached
                   "s1" 0%nat (BanMd.mkSess 0 (Some "Q1") 1000 None "connecting") "+256 700"
                   _ _ _ _ _) _);
    vm_compute; reflexivity.
Defined.

Lemma banmd_client_pair_accepted_witness :
  strip_non_digits "256700" = "256700" /\
  fst (BanMd.pair no_failure no_creds (fun _ => "123") "s1" "256700" "r" banmd_empty)
    <> Ok BanMd.PInvalidPhone.
Proof.
  apply (banmd_client_pair_accepted "+256 700"). reflexivity.
Defined.

Lemma banmd_getQR_fresh_for_new_witness :
  BanMd.w_reg (snd (BanMd.getQR no_failure no_creds (Some "new") "r" 0 banmd_named_new))
    = <["r" := BanMd.w_next banmd_named_new]> (BanMd.w_reg banmd_named_new) /\
  BanMd.w_log (snd (BanMd.getQR no_failure no_creds (Some "new") "r" 0 banmd_named_new))
    = BanMd.w_log banmd_named_new ++ [UseMultiFileAuthState ("sessions/" +:+ "r");
                                      FetchLatestBaileysVersion; MakeWASocket].
Proof.
  apply (banmd_getQR_fresh_for_new no_failure no_creds (Some "new") "r" 0 banmd_named_new
           (BanMd.QWait "r" 1%nat (0 + BanMd.QR_WAIT))).
  - right; right; reflexivity.
  - vm_compute. reflexivity.
  - vm_compute. reflexivity.
Defined.

Lemma banmd_createSession_frame_witness :
  let w' := snd (BanMd.createSession no_failure no_creds (Some "s2") "r" banmd_cached) in
  (forall k, k <> "s2" -> BanMd.w_reg w' !! k = BanMd.w_reg banmd_cached !! k) /\
  (forall l, (l < BanMd.w_next banmd_cached)%nat ->
             BanMd.w_heap w' !! l = BanMd.w_heap banmd_cached !! l) /\
  (BanMd.w_next banmd_cached <= BanMd.w_next w')%nat /\
  BanMd.w_log banmd_cached `prefix_of` BanMd.w_log w'.
Proof.
  cbv zeta.
  apply (banmd_createSession_frame no_failure no_creds (Some "s2") "r" banmd_cached
           (fst (BanMd.createSession no_failure no_creds (Some "s2") "r" banmd_cached))).
  vm_compute. reflexivity.
Defined.

Lemma server_createSession_frame_witness :
  let w' := snd (Server.createSession no_failure "s2" server_s1) in
  (forall k, k <> "s2" -> Server.sv_reg w' !! k = Server.sv_reg server_s1 !! k) /\
  (Server.sv_next server_s1 <= Server.sv_next w')%nat /\
  Server.sv_log server_s1 `prefix_of` Server.sv_log w'.
Proof.
  cbv zeta.
  apply (server_createSession_frame no_failure "s2" server_s1
           (fst (Server.createSession no_failure "s2" server_s1))).
  vm_compute. reflexivity.
Defined.

Lemma part000_newSessionId_injective_witness :
  [Byte.x0a; Byte.xff; Byte.x00; Byte.x7f] = [Byte.x0a; Byte.xff; Byte.x00; Byte.x7f].
Proof.
  apply part000_newSessionId_injective. reflexivity.
Defined.

Lemma part000_settle_latches_witness :
  Part000.l_sent (Part000.run_lsn "s1"
    (Part000.on_lsn_event "s1" (Part000.mkLsn None 0 false 1 [("u1", "s1")])
       (Part000.LSendSettled false))
    [Part000.LUpdate (mkUpdate None (Some "open")) 10 (Some "u1")]) = true /\
  Part000.l_msgs (Part000.run_lsn "s1"
    (Part000.on_lsn_event "s1" (Part000.mkLsn None 0 false 1 [("u1", "s1")])
       (Part000.LSendSettled false))
    [Part000.LUpdate (mkUpdate None (Some "open")) 10 (Some "u1")]) = [("u1", "s1")].
Proof.
  apply (part000_settle_latches "s1" (Part000.mkLsn None 0 false 1 [("u1", "s1")]) false
           [Part000.LUpdate (mkUpdate None (Some "open")) 10 (Some "u1")]).
  cbn. lia.
Defined.

Lemma part000_open_updates_before_settle_witness :
  length (Part000.l_msgs (Part000.run_lsn "s1" Part000.lsn0
    [Part000.LUpdate (mkUpdate None (Some "open")) 10 (Some "u1");
     Part000.LUpdate (mkUpdate None (Some "open")) 20 (Some "u1")]))
    = (length (Part000.l_msgs Part000.lsn0) + 2)%nat /\
  Part000.l_inflight (Part000.run_lsn "s1" Part000.lsn0
    [Part000.LUpdate (mkUpdate None (Some "open")) 10 (Some "u1");
     Part000.LUpdate (mkUpdate None (Some "open")) 20 (Some "u1")])
    = (Part000.l_inflight Part000.lsn0 + 2)%nat.
Proof.
  apply (part000_open_updates_before_settle "s1" Part000.lsn0
           [Part000.LUpdate (mkUpdate None (Some "open")) 10 (Some "u1");
            Part000.LUpdate (mkUpdate None (Some "open")) 20 (Some "u1")]).
  - reflexivity.
  - repeat constructor; do 3 eexists; split_and!; reflexivity.
Defined.

Lemma part002_new_code_valid_witness :
  Part002.validate (Some "ABCD2345") 300000 (Part002.newCode "ABCD2345" 0 ∅).2
    = (Part002.VResult "ABCD2345" true, (Part002.newCode "ABCD2345" 0 ∅).2) /\
  Part002.qr_png "ABCD2345" 300000 (Part002.newCode "ABCD2345" 0 ∅).2
    = (Part002.PngQR (String.append "PAIR:" "ABCD2345"), (Part002.newCode "ABCD2345" 0 ∅).2).
Proof.
  apply part002_new_code_valid; [reflexivity|unfold Part002.CODE_TTL_MS; lia].
Defined.

Lemma part002_expired_stays_invalid_witness :
  Part002.isValid "ABCD2345" 300001 (Part002.newCode "ABCD2345" 0 ∅).2
    = (false, delete "ABCD2345" (Part002.newCode "ABCD2345" 0 ∅).2) /\
  forall now', Part002.isValid "ABCD2345" now' (delete "ABCD2345" (Part002.newCode "ABCD2345" 0 ∅).2)
               = (false, delete "ABCD2345" (Part002.newCode "ABCD2345" 0 ∅).2).
Proof.
  apply (part002_expired_stays_invalid "ABCD2345" 300001 _ (Part002.mkRec 0 300000)).
  - vm_compute. reflexivity.
  - reflexivity.
Defined.

Lemma part002_validate_png_agree_witness :
  exists v st',
    Part002.validate (Some "ABCD2345") 0 (Part002.newCode "ABCD2345" 0 ∅).2
      = (Part002.VResult "ABCD2345" v, st') /\
    Part002.qr_png "ABCD2345" 0 (Part002.newCode "ABCD2345" 0 ∅).2
      = (if v then Part002.PngQR (String.append "PAIR:" "ABCD2345") else Part002.PngNotFound, st').
Proof.
  apply part002_validate_png_agree. reflexivity.
Defined.

Lemma part003_proto_key_session_witness :
  Part003.createSession no_failure "constructor" part003_empty
    = (Ok (Part003.VInherited "constructor"), part003_empty) /\
  (exists e, Part003.status (fun _ => 1) "constructor" part003_empty = (Throw e, part003_empty)) /\
  (exists e, Part003.qr_start no_failure "constructor" part003_empty = (Throw e, part003_empty)).
Proof.
  apply part003_proto_key_session.
  - apply (bool_decide_unpack _). vm_compute. reflexivity.
  - vm_compute. reflexivity.
Defined.

Lemma part003_qr_listeners_accumulate_witness :
  exists w', qr_n no_failure "s1" 3 part003_s1 = (Ok tt, w') /\
    Part003.p_sessions w' = Part003.p_sessions part003_s1 /\
    Part003.p_log w' = Part003.p_log part003_s1 /\
    default O (Part003.p_listeners w' !! 0%nat)
      = (default O (Part003.p_listeners part003_s1 !! 0%nat) + 3)%nat.
Proof.
  apply part003_qr_listeners_accumulate. vm_compute. reflexivity.
Defined.

Lemma part003_status_after_create_witness :
  exists st,
    Part003.status (fun _ => 1) "s1" (snd (Part003.createSession no_failure "s1" part003_empty))
      = (Ok (Part003.StStatus "s1" st), snd (Part003.createSession no_failure "s1" part003_empty))
    /\ st ∈ ["open"; "close"; "connecting"].
Proof.
  apply (part003_status_after_create no_failure (fun _ => 1) "s1" part003_empty
           (Part003.VSession 0)).
  - apply (bool_decide_unpack _). vm_compute. reflexivity.
  - vm_compute. reflexivity.
Defined.

Lemma part003_qr_last_wins_witness :
  Part003.qr_reply ([mkUpdate (Some "Q1") None] ++
                    mkUpdate (Some "Q2") None :: [mkUpdate (Some "") (Some "connecting")])
  = Part003.QOk (String.append "data:image/png;base64," "Q2").
Proof.
  apply part003_qr_last_wins; [reflexivity|repeat constructor].
Defined.

Lemma banmd_listener_caches_truthy_qr_witness :
  truthy "Q2" = true.
Proof.
  apply (banmd_listener_caches_truthy_qr 0%nat 5000 (mkUpdate (Some "Q2") None) None
           banmd_cached 0%nat (BanMd.mkSess 0 (Some "Q2") 5000 None "connecting") "Q2").
  - intros h0 s0 q0 H1 H2. unfold banmd_cached in H1. cbn [BanMd.w_heap] in H1.
    apply lookup_singleton_Some in H1 as [_ <-]. cbn in H2. injection H2 as <-.
    reflexivity.
  - vm_compute. reflexivity.
  - reflexivity.
Defined.
